(** * EC2 launch-template sync: a shallow embedding of
      [cartography/intel/aws/ec2/launch_templates.py]

    The module polls the EC2 API region by region, reshapes the raw records
    and hands them to the graph loader, then reaps stale nodes.  The pure
    transformers are embedded as functions into an error type; the fetchers
    and the orchestrator as a state-and-error monad over a world that holds
    the remote service, the graph and the trace of every external call.

    The boto3 paginators, the graph loader [load] and [GraphJob] are
    collaborators and enter as parameters; building the client
    ([boto3_session.client], [get_botocore_config]) has no effect this
    module observes and is left out. *)

From stdpp Require Import gmap strings list fin_maps pretty.
From Stdlib Require Import ZArith Lia.

#[local] Set Warnings "-register-all,-clear-no-such-hyp".
#[local] Open Scope Z_scope.

(** ** Python values

    The values an EC2 response is made of.  A [datetime] is the
    timezone-aware kind botocore produces, kept as its distance from the
    epoch in microseconds (the resolution of [datetime]). *)

Inductive value :=
| VNone
| VBool (b : bool)
| VInt (n : Z)
| VStr (s : string)
| VDatetime (us : Z)
| VList (l : list value)
| VDict (d : gmap string value).

(** [dict[str, Any]] *)
Abbreviation dict := (gmap string value).

(** ** Exceptions *)

Inductive exn :=
| KeyError (key : string)
| TypeError (msg : string)
| AttributeError (attr : string)
| ClientError (code : string)       (* botocore.exceptions.ClientError, with e.response["Error"]["Code"] *)
| OtherError (name : string).       (* anything else a collaborator raises *)

Inductive pyresult (A : Type) :=
| Ok (a : A)
| Raise (e : exn).
Arguments Ok {A} a.
Arguments Raise {A} e.

#[global] Instance pyresult_ret : MRet pyresult := λ A a, Ok a.
#[global] Instance pyresult_bind : MBind pyresult :=
  λ A B f m, match m with Ok a => f a | Raise e => Raise e end.

(** [d[k]] *)
Definition getitem (d : dict) (k : string) : pyresult value :=
  match d !! k with
  | Some v => Ok v
  | None => Raise (KeyError k)
  end.

(** ** Hashing and set membership

    Members of a Python set are compared by [hash] and [==].  [hkey] has one
    inhabitant per equivalence class of hashable values ([True == 1] and
    [False == 0]); lists and dicts are unhashable. *)

Inductive hkey :=
| HNone
| HInt (n : Z)
| HStr (s : string)
| HDatetime (us : Z).

#[global] Instance hkey_eq_dec : EqDecision hkey.
Proof. solve_decision. Defined.

Definition hkey_encode (k : hkey) : unit + Z + string + Z :=
  match k with
  | HNone => inl (inl (inl tt))
  | HInt n => inl (inl (inr n))
  | HStr s => inl (inr s)
  | HDatetime us => inr us
  end.

Definition hkey_decode (x : unit + Z + string + Z) : hkey :=
  match x with
  | inl (inl (inl _)) => HNone
  | inl (inl (inr n)) => HInt n
  | inl (inr s) => HStr s
  | inr us => HDatetime us
  end.

#[global] Instance hkey_countable : Countable hkey.
Proof.
  apply (inj_countable' hkey_encode hkey_decode).
  by intros [].
Defined.

Definition py_hash (v : value) : pyresult hkey :=
  match v with
  | VNone => Ok HNone
  | VBool b => Ok (HInt (if b then 1 else 0))
  | VInt n => Ok (HInt n)
  | VStr s => Ok (HStr s)
  | VDatetime us => Ok (HDatetime us)
  | VList _ => Raise (TypeError "unhashable type: 'list'")
  | VDict _ => Raise (TypeError "unhashable type: 'dict'")
  end.

(** ** Floats and timestamps

    A finite binary64 number is [fmant * 2 ^ fexp].  The exponent range is
    never consulted: the datetimes of years 1 to 9999 stay far inside it. *)

Record pyfloat := MkFloat { fmant : Z; fexp : Z }.

(** [a / b] on integers, [b > 0]: the quotient correctly rounded to 53 bits,
    ties to even. *)
Definition true_divide (a b : Z) : pyfloat :=
  if decide (a = 0) then MkFloat 0 0
  else
    let n := Z.abs a in
    let e0 := Z.log2 n - Z.log2 b - 52 in
    let scaled e := if decide (0 <= e) then (n, b * 2 ^ e) else (n * 2 ^ (- e), b) in
    let e := if decide (fst (scaled e0) / snd (scaled e0) < 2 ^ 52) then e0 - 1 else e0 in
    let '(num, den) := scaled e in
    let q := num / den in
    let r := num mod den in
    let m := if decide (den < 2 * r) then q + 1
             else if decide (den = 2 * r) then (if Z.odd q then q + 1 else q)
             else q in
    MkFloat (Z.sgn a * m) e.

(** [int(x)] on a float: truncation towards zero. *)
Definition int_of_float (x : pyfloat) : Z :=
  if decide (0 <= fexp x) then fmant x * 2 ^ fexp x
  else Z.quot (fmant x) (2 ^ (- fexp x)).

(** [dt.timestamp()] on an aware datetime: [(dt - EPOCH).total_seconds()],
    that is, the microseconds divided by [10**6]. *)
Definition datetime_timestamp (us : Z) : pyfloat := true_divide us (10 ^ 6).

(** [str(int(x.timestamp()))] *)
Definition timestamp_string (x : value) : pyresult value :=
  match x with
  | VDatetime us => Ok (VStr (pretty (int_of_float (datetime_timestamp us))))
  | _ => Raise (AttributeError "timestamp")
  end.

(** ** transform_launch_templates *)

(** [{v["LaunchTemplateId"] for v in versions}] *)
Fixpoint template_id_set (versions : list dict) (acc : gset hkey) : pyresult (gset hkey) :=
  match versions with
  | [] => Ok acc
  | v :: versions' =>
      x ← getitem v "LaunchTemplateId";
      k ← py_hash x;
      template_id_set versions' ({[ k ]} ∪ acc)
  end.

Fixpoint transform_launch_templates_loop (valid_template_ids : gset hkey)
    (templates : list dict) (result : list dict) : pyresult (list dict) :=
  match templates with
  | [] => Ok result
  | template :: templates' =>
      x ← getitem template "LaunchTemplateId";
      k ← py_hash x;
      if decide (k ∉ valid_template_ids) then
        transform_launch_templates_loop valid_template_ids templates' result
      else
        let current := template in
        c ← getitem current "CreateTime";
        s ← timestamp_string c;
        let current := <["CreateTime" := s]> current in
        transform_launch_templates_loop valid_template_ids templates' (result ++ [current])
  end.

Definition transform_launch_templates (templates versions : list dict) : pyresult (list dict) :=
  valid_template_ids ← template_id_set versions ∅;
  transform_launch_templates_loop valid_template_ids templates [].

(** ** transform_launch_template_versions *)

Section Format.

(** [str] of a datetime, a list or a dict: the interpreter's own rendering,
    which this module never inspects. *)
Variable str_other : value → string.

(** [format(v, "")], the conversion of a replacement field in an f-string *)
Definition py_format (v : value) : string :=
  match v with
  | VNone => "None"
  | VBool true => "True"
  | VBool false => "False"
  | VInt n => pretty n
  | VStr s => s
  | _ => str_other v
  end.

(** [ltd.get(k)] *)
Definition py_get (ltd : value) (k : string) : pyresult value :=
  match ltd with
  | VDict d => Ok (default VNone (d !! k))
  | _ => Raise (AttributeError "get")
  end.

(** The body of the loop of [transform_launch_template_versions]. *)
Definition transform_launch_template_version (version : dict) : pyresult dict :=
  let current := version in
  tid ← getitem version "LaunchTemplateId";
  num ← getitem version "VersionNumber";
  let current := <["Id" := VStr (py_format tid +:+ "-" +:+ py_format num)]> current in
  c ← getitem version "CreateTime";
  s ← timestamp_string c;
  let current := <["CreateTime" := s]> current in
  ltd ← getitem version "LaunchTemplateData";
  x ← py_get ltd "KernelId";
  let current := <["KernelId" := x]> current in
  x ← py_get ltd "EbsOptimized";
  let current := <["EbsOptimized" := x]> current in
  x ← py_get ltd "IamInstanceProfileArn";
  let current := <["IamInstanceProfileArn" := x]> current in
  x ← py_get ltd "IamInstanceProfileName";
  let current := <["IamInstanceProfileName" := x]> current in
  x ← py_get ltd "ImageId";
  let current := <["ImageId" := x]> current in
  x ← py_get ltd "InstanceType";
  let current := <["InstanceType" := x]> current in
  x ← py_get ltd "KeyName";
  let current := <["KeyName" := x]> current in
  x ← py_get ltd "MonitoringEnabled";
  let current := <["MonitoringEnabled" := x]> current in
  x ← py_get ltd "RamdiskId";
  let current := <["RamdiskId" := x]> current in
  x ← py_get ltd "DisableApiTermination";
  let current := <["DisableApiTermination" := x]> current in
  x ← py_get ltd "InstanceInitiatedShutDownBehavior";
  let current := <["InstanceInitiatedShutDownBehavior" := x]> current in
  x ← py_get ltd "SecurityGroupIds";
  let current := <["SecurityGroupIds" := x]> current in
  x ← py_get ltd "SecurityGroups";
  let current := <["SecurityGroups" := x]> current in
  Ok current.

Fixpoint transform_launch_template_versions_loop (versions : list dict)
    (result : list dict) : pyresult (list dict) :=
  match versions with
  | [] => Ok result
  | version :: versions' =>
      current ← transform_launch_template_version version;
      transform_launch_template_versions_loop versions' (result ++ [current])
  end.

Definition transform_launch_template_versions (versions : list dict) : pyresult (list dict) :=
  transform_launch_template_versions_loop versions [].

End Format.

(** The keys read out of the nested [LaunchTemplateData], in source order. *)
Definition tracked_fields : list string :=
  [ "KernelId"; "EbsOptimized"; "IamInstanceProfileArn"; "IamInstanceProfileName";
    "ImageId"; "InstanceType"; "KeyName"; "MonitoringEnabled"; "RamdiskId";
    "DisableApiTermination"; "InstanceInitiatedShutDownBehavior";
    "SecurityGroupIds"; "SecurityGroups" ].

(** ** The outside world

    The EC2 service and the graph are collaborators: each call steps an
    abstract state and is appended to the trace.  A paginator is lazy, one
    request per page, so a pagination is a run of pages that ends normally
    or in the exception of the request that failed. *)

Inductive schema := LaunchTemplateSchema | LaunchTemplateVersionSchema.

Inductive pages (P : Type) :=
| PagesEnd
| PagesYield (page : P) (rest : pages P)
| PagesRaise (e : exn).
Arguments PagesEnd {P}.
Arguments PagesYield {P} page rest.
Arguments PagesRaise {P} e.

(** The response shapes of the two paginated operations, with the one key
    this module reads from each. *)
Record templates_page := { LaunchTemplates : list dict }.
Record versions_page := { LaunchTemplateVersions : list dict }.

Inductive event :=
| DescribeLaunchTemplates (region : string)
| DescribeLaunchTemplateVersions (LaunchTemplateId : value) (region : string)
| LogInfo (msg : string)
| LogWarning (msg : string) (args : list value)
| Load (s : schema) (data : list dict) (Region AWS_ID : string) (lastupdated : Z)
| GraphJobRun (s : schema) (common_job_parameters : dict).

Section Sync.

Context {ec2 neo4j : Type}.

Variable str_other : value → string.
Variable paginate_launch_templates : string → ec2 → pages templates_page * ec2.
Variable paginate_launch_template_versions :
  value → string → ec2 → pages versions_page * ec2.
Variable load : schema → list dict → string → string → Z → neo4j → pyresult unit * neo4j.
Variable graph_job_run : schema → dict → neo4j → pyresult unit * neo4j.

Record world := World { ec2_state : ec2; graph_state : neo4j; trace : list event }.

Definition M (A : Type) : Type := world → pyresult A * world.

#[global] Instance M_ret : MRet M := λ A a w, (Ok a, w).
#[global] Instance M_bind : MBind M :=
  λ A B f m w, match m w with
               | (Ok a, w') => f a w'
               | (Raise e, w') => (Raise e, w')
               end.

Definition raise {A} (e : exn) : M A := λ w, (Raise e, w).

Definition lift {A} (r : pyresult A) : M A := λ w, (r, w).

Definition emit (ev : event) : M unit :=
  λ w, (Ok tt, World (ec2_state w) (graph_state w) (trace w ++ [ev])).

Definition step_ec2 {P} (f : ec2 → pages P * ec2) : M (pages P) :=
  λ w, let '(ps, s) := f (ec2_state w) in (Ok ps, World s (graph_state w) (trace w)).

Definition step_graph (f : neo4j → pyresult unit * neo4j) : M unit :=
  λ w, let '(r, g) := f (graph_state w) in (r, World (ec2_state w) g (trace w)).

Definition call_ec2 {P} (ev : event) (f : ec2 → pages P * ec2) : M (pages P) :=
  emit ev;; step_ec2 f.

Definition call_graph (ev : event) (f : neo4j → pyresult unit * neo4j) : M unit :=
  emit ev;; step_graph f.

(** Modelled from the spec: the decorators [timeit] and [aws_handle_regions]
    of [cartography.util], whose source is not part of this module.  The spec
    gives a decorated function no behaviour beyond its body (every error but
    the tolerated not-found propagates unchanged), so both hand back the
    outcome of the function they wrap. *)
Definition timeit {A} (f : M A) : M A := f.

Definition aws_handle_regions (f : M (list dict)) : M (list dict) := f.

(** [for page in ...: acc.extend(page[key])], up to the end of the pages or
    the exception that interrupts them. *)
Fixpoint extend_pages {P} (items : P → list dict) (ps : pages P) (acc : list dict)
    : list dict * option exn :=
  match ps with
  | PagesEnd => (acc, None)
  | PagesYield page rest => extend_pages items rest (acc ++ items page)
  | PagesRaise e => (acc, Some e)
  end.

Definition get_launch_templates (region : string) : M (list dict) :=
  timeit (aws_handle_regions (
    ps ← call_ec2 (DescribeLaunchTemplates region) (paginate_launch_templates region);
    match extend_pages LaunchTemplates ps [] with
    | (templates, None) => mret templates
    | (_, Some e) => raise e
    end)).

Definition get_launch_template_versions_by_template
    (launch_template_id : value) (region : string) : M (list dict) :=
  timeit (aws_handle_regions (
    ps ← call_ec2 (DescribeLaunchTemplateVersions launch_template_id region)
                  (paginate_launch_template_versions launch_template_id region);
    match extend_pages LaunchTemplateVersions ps [] with
    | (template_versions, None) => mret template_versions
    | (template_versions, Some (ClientError error_code)) =>
        if decide (error_code = "InvalidLaunchTemplateId.NotFound") then
          emit (LogWarning "Launch template %s no longer exists in region %s"
                           [launch_template_id; VStr region]);;
          mret template_versions
        else raise (ClientError error_code)
    | (_, Some e) => raise e
    end)).

Fixpoint get_launch_template_versions_loop (region : string)
    (launch_templates : list dict) (template_versions : list dict) : M (list dict) :=
  match launch_templates with
  | [] => mret template_versions
  | template :: launch_templates' =>
      launch_template_id ← lift (getitem template "LaunchTemplateId");
      versions ← get_launch_template_versions_by_template launch_template_id region;
      get_launch_template_versions_loop region launch_templates' (template_versions ++ versions)
  end.

Definition get_launch_template_versions (region : string)
    (launch_templates : list dict) : M (list dict) :=
  timeit (aws_handle_regions (
    get_launch_template_versions_loop region launch_templates [])).

Definition load_launch_templates (data : list dict) (region current_aws_account_id : string)
    (update_tag : Z) : M unit :=
  timeit (
    call_graph (Load LaunchTemplateSchema data region current_aws_account_id update_tag)
               (load LaunchTemplateSchema data region current_aws_account_id update_tag)).

Definition load_launch_template_versions (data : list dict)
    (region current_aws_account_id : string) (update_tag : Z) : M unit :=
  timeit (
    call_graph
      (Load LaunchTemplateVersionSchema data region current_aws_account_id update_tag)
      (load LaunchTemplateVersionSchema data region current_aws_account_id update_tag)).

Definition cleanup (common_job_parameters : dict) : M unit :=
  timeit (
    emit (LogInfo "Running launch template cleanup job.");;
    call_graph (GraphJobRun LaunchTemplateSchema common_job_parameters)
               (graph_job_run LaunchTemplateSchema common_job_parameters);;
    call_graph (GraphJobRun LaunchTemplateVersionSchema common_job_parameters)
               (graph_job_run LaunchTemplateVersionSchema common_job_parameters)).

(** One pass of the loop over [regions]. *)
Definition sync_region (region current_aws_account_id : string) (update_tag : Z) : M unit :=
  emit (LogInfo ("Syncing launch templates for region '" +:+ region +:+
                 "' in account '" +:+ current_aws_account_id +:+ "'."));;
  templates ← get_launch_templates region;
  versions ← get_launch_template_versions region templates;
  transformed_templates ← lift (transform_launch_templates templates versions);
  load_launch_templates transformed_templates region current_aws_account_id update_tag;;
  transformed_versions ← lift (transform_launch_template_versions str_other versions);
  load_launch_template_versions transformed_versions region current_aws_account_id update_tag.

Fixpoint sync_regions (regions : list string) (current_aws_account_id : string)
    (update_tag : Z) : M unit :=
  match regions with
  | [] => mret tt
  | region :: regions' =>
      sync_region region current_aws_account_id update_tag;;
      sync_regions regions' current_aws_account_id update_tag
  end.

Definition sync_ec2_launch_templates (regions : list string) (current_aws_account_id : string)
    (update_tag : Z) (common_job_parameters : dict) : M unit :=
  timeit (
    sync_regions regions current_aws_account_id update_tag;;
    cleanup common_job_parameters).

End Sync.

(** ** Specification vocabulary *)

(** The hashable id of a record, when it has one. *)
Definition template_key (d : dict) : option hkey :=
  match d !! "LaunchTemplateId" with
  | Some v => match py_hash v with Ok k => Some k | Raise _ => None end
  | None => None
  end.

(** The template's id occurs in at least one version record. *)
Definition has_version (versions : list dict) (template : dict) : Prop :=
  is_Some (template_key template) ∧
  Exists (λ v, template_key v = template_key template) versions.

#[global] Instance has_version_dec versions template : Decision (has_version versions template).
Proof. unfold has_version. apply _. Defined.

(** [str(int(dt.timestamp()))] as a value *)
Definition epoch_seconds_string (us : Z) : value :=
  VStr (pretty (int_of_float (datetime_timestamp us))).

(** [o] is the template [t] with its creation time rewritten. *)
Definition emitted_from (t o : dict) : Prop :=
  ∃ us, t !! "CreateTime" = Some (VDatetime us) ∧
        o = <["CreateTime" := epoch_seconds_string us]> t.

(** [out] holds, for the creation time of [record], the string of the integer
    part of its timestamp; within [2 ^ 34] seconds of the epoch that is the
    whole number of epoch seconds, cut towards zero. *)
Definition creation_time_stored (record out : dict) : Prop :=
  ∃ us, record !! "CreateTime" = Some (VDatetime us) ∧
        out !! "CreateTime" = Some (VStr (pretty (int_of_float (datetime_timestamp us)))) ∧
        (Z.abs us < 2 ^ 34 * 10 ^ 6 →
         out !! "CreateTime" = Some (VStr (pretty (Z.quot us (10 ^ 6))))).

(** What the thirteen assignments from [ltd] do to [current]. *)
Definition flatten (d : dict) (current : dict) : dict :=
  foldl (λ cur f, <[f := default VNone (d !! f)]> cur) current tracked_fields.

(** A version record from which every read of the transform succeeds. *)
Definition well_formed_version (v : dict) : Prop :=
  is_Some (v !! "LaunchTemplateId") ∧
  is_Some (v !! "VersionNumber") ∧
  (∃ us, v !! "CreateTime" = Some (VDatetime us)) ∧
  (∃ d, v !! "LaunchTemplateData" = Some (VDict d)).

(** The template's id is in the set of valid ids. *)
Definition key_in (valid : gset hkey) (template : dict) : Prop :=
  match template_key template with
  | Some k => k ∈ valid
  | None => False
  end.

#[global] Instance key_in_dec valid template : Decision (key_in valid template).
Proof. unfold key_in. destruct (template_key template); apply _. Defined.

(** The composite id of the f-string. *)
Definition composite_id (str_other : value → string) (tid num : value) : value :=
  VStr (py_format str_other tid +:+ "-" +:+ py_format str_other num).

(** The nested object is missing: the key is absent, or holds [None]. *)
Definition lacks_launch_template_data (v : dict) : Prop :=
  v !! "LaunchTemplateData" = None ∨ v !! "LaunchTemplateData" = Some VNone.

(** *** Traces and paginations *)

(** The exception that interrupts a pagination, if any. *)
Fixpoint pages_error {P} (ps : pages P) : option exn :=
  match ps with
  | PagesEnd => None
  | PagesYield _ rest => pages_error rest
  | PagesRaise e => Some e
  end.

(** The pages a pagination yields before it ends or fails. *)
Fixpoint pages_received {P} (ps : pages P) : list P :=
  match ps with
  | PagesYield page rest => page :: pages_received rest
  | _ => []
  end.

Definition is_job_run (ev : event) : Prop :=
  match ev with GraphJobRun _ _ => True | _ => False end.

#[global] Instance is_job_run_dec ev : Decision (is_job_run ev).
Proof. destruct ev; apply _. Defined.

(** The events of one complete call of [cleanup]. *)
Definition cleanup_events (common_job_parameters : dict) : list event :=
  [ LogInfo "Running launch template cleanup job.";
    GraphJobRun LaunchTemplateSchema common_job_parameters;
    GraphJobRun LaunchTemplateVersionSchema common_job_parameters ].

(** The events of the per-template version fetches of one region. *)
Definition is_version_fetch (region : string) (ev : event) : Prop :=
  match ev with
  | DescribeLaunchTemplateVersions _ r => r = region
  | LogWarning _ _ => True
  | _ => False
  end.

(** The message that opens the pass over one region. *)
Definition sync_start (region current_aws_account_id : string) : event :=
  LogInfo ("Syncing launch templates for region '" +:+ region +:+
           "' in account '" +:+ current_aws_account_id +:+ "'.").

(** The events of one complete pass of the region loop: the start message,
    the template fetch, the version fetches, then the two loads. *)
Definition region_segment (current_aws_account_id : string) (update_tag : Z)
    (region : string) (seg : list event) : Prop :=
  ∃ fetches templates versions,
    Forall (is_version_fetch region) fetches ∧
    seg = [ sync_start region current_aws_account_id;
            DescribeLaunchTemplates region ] ++ fetches ++
          [ Load LaunchTemplateSchema templates region current_aws_account_id update_tag;
            Load LaunchTemplateVersionSchema versions region current_aws_account_id update_tag ].

(** The version paginations a trace starts, in order. *)
Definition version_fetches (t : list event) : list (value * string) :=
  omap (λ ev, match ev with
              | DescribeLaunchTemplateVersions i r => Some (i, r)
              | _ => None
              end) t.

(** A computation only appends to the trace, and [Q] relates its outcome to
    what it appends. *)
Definition appends {ec2 neo4j A} (m : @M ec2 neo4j A)
    (Q : pyresult A → list event → Prop) : Prop :=
  ∀ w, ∃ t, trace (m w).2 = trace w ++ t ∧ Q (m w).1 t.

Section FetchChain.

Context {ec2 neo4j : Type}.
Variable paginate_launch_template_versions :
  value → string → ec2 → pages versions_page * ec2.

(** The per-template fetch run once for each template, in list order, each
    from the world the previous one left. *)
Inductive fetch_chain (region : string) :
    list dict → @world ec2 neo4j → list (list dict) → @world ec2 neo4j → Prop :=
| fetch_chain_nil w : fetch_chain region [] w [] w
| fetch_chain_cons template templates launch_template_id versions rest w w1 w2 :
    template !! "LaunchTemplateId" = Some launch_template_id →
    get_launch_template_versions_by_template paginate_launch_template_versions
      launch_template_id region w = (Ok versions, w1) →
    fetch_chain region templates w1 rest w2 →
    fetch_chain region (template :: templates) w (versions :: rest) w2.

End FetchChain.

Definition is_load (ev : event) : Prop :=
  match ev with Load _ _ _ _ _ => True | _ => False end.

#[global] Instance is_load_dec ev : Decision (is_load ev).
Proof. destruct ev; apply _. Defined.

(** The ids of the templates that carry one, in list order. *)
Definition launch_template_ids (launch_templates : list dict) : list value :=
  omap (λ template, template !! "LaunchTemplateId") launch_templates.

(** ** Sample data

    Two templates, their versions, and a scripted EC2 service: in
    [us-east-1] template [lt-1] has one page of versions and is then found
    deleted, [lt-2] has one page; in [eu-west-1] the request for [lt-2] is
    throttled; in [ap-south-1] the one version comes without its nested
    data. *)

Definition sample_time : Z := 1700000000500000.

Definition sample_template_1 : dict :=
  {[ "LaunchTemplateId" := VStr "lt-1"; "CreateTime" := VDatetime sample_time ]}.

Definition sample_template_2 : dict :=
  {[ "LaunchTemplateId" := VStr "lt-2"; "CreateTime" := VDatetime sample_time ]}.

Definition sample_version_1 : dict :=
  {[ "LaunchTemplateId" := VStr "lt-1"; "VersionNumber" := VInt 1;
     "CreateTime" := VDatetime sample_time;
     "LaunchTemplateData" :=
       VDict {[ "ImageId" := VStr "ami-1"; "EbsOptimized" := VBool true ]} ]}.

Definition sample_version_2 : dict :=
  {[ "LaunchTemplateId" := VStr "lt-2"; "VersionNumber" := VInt 7;
     "CreateTime" := VDatetime sample_time;
     "LaunchTemplateData" := VDict ∅ ]}.

(** The version of the spec's example, carrying a key [Id] of its own. *)
Definition sample_version_9 : dict :=
  {[ "LaunchTemplateId" := VStr "lt-9"; "VersionNumber" := VInt 3;
     "CreateTime" := VDatetime sample_time;
     "LaunchTemplateData" := VDict {[ "KernelId" := VStr "aki-1" ]};
     "Id" := VStr "mine" ]}.

Definition sample_version_no_data : dict :=
  {[ "LaunchTemplateId" := VStr "lt-1"; "VersionNumber" := VInt 1;
     "CreateTime" := VDatetime sample_time ]}.

(** The last microsecond a datetime can hold, 9999-12-31 23:59:59.999999 UTC. *)
Definition sample_late_time : Z := 253402300799999999.

Definition sample_late_template : dict :=
  {[ "LaunchTemplateId" := VStr "lt-1"; "CreateTime" := VDatetime sample_late_time ]}.

Definition sample_late_version : dict :=
  {[ "LaunchTemplateId" := VStr "lt-1"; "VersionNumber" := VInt 1;
     "CreateTime" := VDatetime sample_late_time;
     "LaunchTemplateData" := VDict ∅ ]}.

Definition sample_str_other : value → string := λ _, "".

Definition not_found : exn := ClientError "InvalidLaunchTemplateId.NotFound".

Definition sample_paginate_templates (region : string) (s : unit)
    : pages templates_page * unit :=
  (match region with
   | "us-east-1" =>
       PagesYield {| LaunchTemplates := [sample_template_1; sample_template_2] |} PagesEnd
   | "eu-west-1" => PagesYield {| LaunchTemplates := [sample_template_2] |} PagesEnd
   | "ap-south-1" => PagesYield {| LaunchTemplates := [sample_template_1] |} PagesEnd
   | _ => PagesEnd
   end, s).

Definition sample_paginate_versions (launch_template_id : value) (region : string)
    (s : unit) : pages versions_page * unit :=
  (match region, launch_template_id with
   | "us-east-1", VStr "lt-1" =>
       PagesYield {| LaunchTemplateVersions := [sample_version_1] |} (PagesRaise not_found)
   | "us-east-1", VStr "lt-2" =>
       PagesYield {| LaunchTemplateVersions := [sample_version_2] |} PagesEnd
   | "eu-west-1", VStr "lt-2" => PagesRaise (ClientError "RequestLimitExceeded")
   | "ap-south-1", VStr "lt-1" =>
       PagesYield {| LaunchTemplateVersions := [sample_version_no_data] |} PagesEnd
   | _, _ => PagesRaise not_found
   end, s).

(** A service on which every template has been deleted. *)
Definition sample_paginate_gone (launch_template_id : value) (region : string)
    (s : unit) : pages versions_page * unit :=
  (PagesRaise not_found, s).

Definition sample_load (s : schema) (data : list dict) (region aws_id : string)
    (lastupdated : Z) (g : unit) : pyresult unit * unit := (Ok tt, g).

Definition sample_graph_job_run (s : schema) (params : dict) (g : unit)
    : pyresult unit * unit := (Ok tt, g).

Definition sample_world : @world unit unit := World tt tt [].

Definition sample_account : string := "123456789012".

(** The world at the version fetch of [lt-2] in [eu-west-1]. *)
Definition sample_world_eu : @world unit unit :=
  World tt tt [ sync_start "eu-west-1" sample_account;
                DescribeLaunchTemplates "eu-west-1" ].

(** The worlds after the template fetch and after the version fetch in
    [ap-south-1]. *)
Definition sample_world_ap_1 : @world unit unit :=
  World tt tt [ sync_start "ap-south-1" sample_account;
                DescribeLaunchTemplates "ap-south-1" ].

Definition sample_world_ap_2 : @world unit unit :=
  World tt tt [ sync_start "ap-south-1" sample_account;
                DescribeLaunchTemplates "ap-south-1";
                DescribeLaunchTemplateVersions (VStr "lt-1") "ap-south-1" ].

(** The records of a successful transform, the empty list otherwise. *)
Definition records (r : pyresult (list dict)) : list dict :=
  match r with Ok out => out | Raise _ => [] end.

Definition succeeds {A} (r : pyresult A) : bool :=
  match r with Ok _ => true | Raise _ => false end.

(** ** Basic facts *)

Lemma succeeds_records r : succeeds r = true → r = Ok (records r).
Proof. by destruct r. Qed.

Lemma bind_Ok {A B} (m : pyresult A) (f : A → pyresult B) b :
  m ≫= f = Ok b ↔ ∃ a, m = Ok a ∧ f a = Ok b.
Proof.
  destruct m as [a|e]; simpl; split.
  - eauto.
  - by intros (a' & [= <-] & ?).
  - done.
  - by intros (a' & ? & ?).
Qed.

Lemma getitem_Ok (d : dict) k v : getitem d k = Ok v ↔ d !! k = Some v.
Proof. unfold getitem. destruct (d !! k); split; congruence. Qed.

Lemma timestamp_string_Ok c s :
  timestamp_string c = Ok s ↔ ∃ us, c = VDatetime us ∧ s = epoch_seconds_string us.
Proof.
  unfold timestamp_string, epoch_seconds_string.
  destruct c; split; try done; try (by intros (? & ? & ?)).
  - intros [= <-]. eauto.
  - by intros (? & [= <-] & ->).
Qed.

Lemma Id_not_tracked : "Id" ∉ tracked_fields.
Proof. compute_done. Qed.

Lemma CreateTime_not_tracked : "CreateTime" ∉ tracked_fields.
Proof. compute_done. Qed.

Lemma LaunchTemplateData_not_tracked : "LaunchTemplateData" ∉ tracked_fields.
Proof. compute_done. Qed.

Lemma foldl_insert_lookup (d current : dict) (fs : list string) k :
  foldl (λ cur f, <[f := default VNone (d !! f)]> cur) current fs !! k =
    if decide (k ∈ fs) then Some (default VNone (d !! k)) else current !! k.
Proof.
  revert current. induction fs as [|f fs IH] using rev_ind; intros current.
  - rewrite decide_False by apply not_elem_of_nil. done.
  - rewrite foldl_app. cbn [foldl]. destruct (decide (f = k)) as [->|Hne].
    + rewrite lookup_insert_eq. rewrite decide_True; [done |].
      apply elem_of_app. right. by apply list_elem_of_singleton.
    + rewrite lookup_insert_ne by done. rewrite IH.
      destruct (decide (k ∈ fs)) as [Hin|Hnin].
      * rewrite decide_True; [done | apply elem_of_app; by left].
      * rewrite decide_False; [done |].
        intros [?|?%list_elem_of_singleton]%elem_of_app; done.
Qed.

Lemma flatten_lookup (d current : dict) k :
  flatten d current !! k =
    if decide (k ∈ tracked_fields) then Some (default VNone (d !! k)) else current !! k.
Proof. apply foldl_insert_lookup. Qed.

Section VersionFacts.

Variable str_other : value → string.

Lemma transform_launch_template_version_Ok version current :
  transform_launch_template_version str_other version = Ok current ↔
  ∃ tid num us d,
    version !! "LaunchTemplateId" = Some tid ∧
    version !! "VersionNumber" = Some num ∧
    version !! "CreateTime" = Some (VDatetime us) ∧
    version !! "LaunchTemplateData" = Some (VDict d) ∧
    current = flatten d (<["CreateTime" := epoch_seconds_string us]>
                           (<["Id" := composite_id str_other tid num]> version)).
Proof.
  unfold transform_launch_template_version, getitem.
  split.
  - destruct (version !! "LaunchTemplateId") as [tid|]; [|done].
    destruct (version !! "VersionNumber") as [num|]; [|done].
    destruct (version !! "CreateTime") as [c|]; [|done].
    destruct c as [| | | |us| |]; try done.
    destruct (version !! "LaunchTemplateData") as [ltd|]; [|done].
    destruct ltd as [| | | | | |d]; try done.
    intros [= <-]. by exists tid, num, us, d.
  - intros (tid & num & us & d & -> & -> & -> & -> & ->). done.
Qed.

Lemma transform_launch_template_versions_loop_Ok versions result out :
  transform_launch_template_versions_loop str_other versions result = Ok out ↔
  ∃ currents,
    Forall2 (λ v o, transform_launch_template_version str_other v = Ok o) versions currents ∧
    out = result ++ currents.
Proof.
  revert result. induction versions as [|version versions IH]; intros result; simpl.
  - split.
    + intros [= <-]. exists []. by rewrite app_nil_r.
    + intros (currents & ->%Forall2_nil_inv_l & ->). by rewrite app_nil_r.
  - rewrite bind_Ok. split.
    + intros (current & Hcur & (currents & Hall & ->)%IH).
      exists (current :: currents). split; [by constructor |].
      by rewrite <- app_assoc.
    + intros (currents' & (current & currents & Hcur & Hall & ->)%Forall2_cons_inv_l & ->).
      exists current. split; [done |]. apply IH. exists currents.
      split; [done |]. by rewrite <- app_assoc.
Qed.

Lemma transform_launch_template_versions_Ok versions out :
  transform_launch_template_versions str_other versions = Ok out ↔
  Forall2 (λ v o, transform_launch_template_version str_other v = Ok o) versions out.
Proof.
  unfold transform_launch_template_versions.
  rewrite transform_launch_template_versions_loop_Ok. split.
  - by intros (currents & ? & ->).
  - intros ?. by exists out.
Qed.

Lemma well_formed_version_Ok version :
  well_formed_version version ↔
  ∃ current, transform_launch_template_version str_other version = Ok current.
Proof.
  unfold well_formed_version. split.
  - intros ([tid ?] & [num ?] & [us ?] & [d ?]).
    eexists. apply transform_launch_template_version_Ok.
    by exists tid, num, us, d.
  - intros (current & (tid & num & us & d & ? & ? & ? & ? & _)%transform_launch_template_version_Ok).
    eauto 10.
Qed.

Lemma transform_launch_template_versions_lookup versions out i version :
  transform_launch_template_versions str_other versions = Ok out →
  versions !! i = Some version →
  ∃ current, out !! i = Some current ∧
             transform_launch_template_version str_other version = Ok current.
Proof.
  intros Hall%transform_launch_template_versions_Ok Hi.
  destruct (Forall2_lookup_l _ _ _ _ _ Hall Hi) as (current & ? & ?). eauto.
Qed.

(** C9: the version transform returns one record per input version, in input
    order, each the transform of the version at the same position; nothing is
    filtered.  It returns for every list of well-formed versions. *)
Theorem transform_launch_template_versions_one_per_input versions :
  (∀ out, transform_launch_template_versions str_other versions = Ok out →
     length out = length versions ∧
     ∀ (i : nat) version, versions !! i = Some version →
       ∃ current, out !! i = Some current ∧
                  transform_launch_template_version str_other version = Ok current) ∧
  (Forall well_formed_version versions →
     ∃ out, transform_launch_template_versions str_other versions = Ok out).
Proof.
  split.
  - intros out Hout. split.
    + apply transform_launch_template_versions_Ok in Hout.
      symmetry. by eapply Forall2_length.
    + intros i version. by apply transform_launch_template_versions_lookup.
  - intros Hwf.
    cut (∃ out, Forall2 (λ v o, transform_launch_template_version str_other v = Ok o)
                        versions out).
    { intros [out ?]. exists out. by apply transform_launch_template_versions_Ok. }
    induction Hwf as [|version versions Hv _ [out IH]]; [by exists [] |].
    apply well_formed_version_Ok in Hv as [current ?].
    exists (current :: out). by constructor.
Qed.

(** C3: every tracked field of the nested [LaunchTemplateData] becomes a
    top-level attribute with the identical value; a tracked field the nested
    object lacks becomes [None], never an empty string or a zero. *)
Theorem flattening_complete versions out (i : nat) version :
  transform_launch_template_versions str_other versions = Ok out →
  versions !! i = Some version →
  ∃ current d,
    out !! i = Some current ∧
    version !! "LaunchTemplateData" = Some (VDict d) ∧
    ∀ f, f ∈ tracked_fields →
      (∀ x, d !! f = Some x → current !! f = Some x) ∧
      (d !! f = None → current !! f = Some VNone).
Proof.
  intros Hout Hi.
  destruct (transform_launch_template_versions_lookup _ _ _ _ Hout Hi)
    as (current & Hcur & Hone).
  apply transform_launch_template_version_Ok in Hone
    as (tid & num & us & d & _ & _ & _ & Hltd & ->).
  eexists _, d. split_and!; [done | done |].
  intros f Hf. rewrite flatten_lookup, decide_True by done.
  split.
  - by intros x ->.
  - by intros ->.
Qed.

(** C4: the synthesized [Id] is the LaunchTemplateId, a hyphen and the
    VersionNumber, concatenated; ["lt-9"] and [3] give ["lt-9-3"]. *)
Theorem composite_id_derivation versions out (i : nat) version :
  transform_launch_template_versions str_other versions = Ok out →
  versions !! i = Some version →
  ∃ current tid num,
    out !! i = Some current ∧
    version !! "LaunchTemplateId" = Some tid ∧
    version !! "VersionNumber" = Some num ∧
    current !! "Id" = Some (VStr (py_format str_other tid +:+ "-" +:+ py_format str_other num)) ∧
    (∀ s n, tid = VStr s → num = VInt n →
            current !! "Id" = Some (VStr (s +:+ "-" +:+ pretty n))) ∧
    (tid = VStr "lt-9" → num = VInt 3 → current !! "Id" = Some (VStr "lt-9-3")).
Proof.
  intros Hout Hi.
  destruct (transform_launch_template_versions_lookup _ _ _ _ Hout Hi)
    as (current & Hcur & Hone).
  apply transform_launch_template_version_Ok in Hone
    as (tid & num & us & d & Htid & Hnum & _ & _ & ->).
  assert (Hid : flatten d (<["CreateTime" := epoch_seconds_string us]>
                   (<["Id" := composite_id str_other tid num]> version)) !! "Id"
                = Some (composite_id str_other tid num)).
  { rewrite flatten_lookup, decide_False by apply Id_not_tracked.
    rewrite lookup_insert_ne by done. apply lookup_insert_eq. }
  eexists _, tid, num. split_and!; try done.
  - by intros s n -> ->.
  - by intros -> ->.
Qed.

(** C10, as amended: the output keeps every key of the input; every key other
    than [Id], [CreateTime] and the flattened field names keeps its value; the
    nested [LaunchTemplateData] is still there, unchanged. *)
Theorem version_frame versions out (i : nat) version :
  transform_launch_template_versions str_other versions = Ok out →
  versions !! i = Some version →
  ∃ current,
    out !! i = Some current ∧
    dom version ⊆ dom current ∧
    (∀ k, k ≠ "Id" → k ≠ "CreateTime" → k ∉ tracked_fields →
          current !! k = version !! k) ∧
    is_Some (version !! "LaunchTemplateData") ∧
    current !! "LaunchTemplateData" = version !! "LaunchTemplateData".
Proof.
  intros Hout Hi.
  destruct (transform_launch_template_versions_lookup _ _ _ _ Hout Hi)
    as (current & Hcur & Hone).
  apply transform_launch_template_version_Ok in Hone
    as (tid & num & us & d & _ & _ & _ & Hltd & ->).
  assert (Hframe : ∀ k, k ≠ "Id" → k ≠ "CreateTime" → k ∉ tracked_fields →
            flatten d (<["CreateTime" := epoch_seconds_string us]>
              (<["Id" := composite_id str_other tid num]> version)) !! k = version !! k).
  { intros k ? ? ?. rewrite flatten_lookup, decide_False by done.
    by rewrite !lookup_insert_ne. }
  eexists. split_and!; [done | | done | by rewrite Hltd |].
  - intros k [x Hk]%elem_of_dom. apply elem_of_dom.
    rewrite flatten_lookup. case_decide; [done |].
    destruct (decide ("CreateTime" = k)) as [<-|]; [by rewrite lookup_insert_eq |].
    rewrite lookup_insert_ne by done.
    destruct (decide ("Id" = k)) as [<-|]; [by rewrite lookup_insert_eq |].
    rewrite lookup_insert_ne by done. by rewrite Hk.
  - apply Hframe; [done | done | apply LaunchTemplateData_not_tracked].
Qed.

End VersionFacts.

(** ** The template transform *)

Lemma template_key_step {B} (d : dict) (f : hkey → pyresult B) :
  (x ← getitem d "LaunchTemplateId"; k ← py_hash x; f k) =
  match template_key d with
  | Some k => f k
  | None => Raise (match getitem d "LaunchTemplateId" ≫= py_hash with
                   | Raise e => e
                   | Ok _ => KeyError "LaunchTemplateId"
                   end)
  end.
Proof.
  unfold template_key, getitem.
  destruct (d !! "LaunchTemplateId") as [v|]; simpl; [|done].
  by destruct (py_hash v).
Qed.

Lemma template_id_set_Ok versions acc valid :
  template_id_set versions acc = Ok valid ↔
  Forall (λ v, is_Some (template_key v)) versions ∧
  valid = list_to_set (omap template_key versions) ∪ acc.
Proof.
  revert acc. induction versions as [|v versions IH]; intros acc; simpl.
  - split.
    + intros [= <-]. split; [constructor | set_solver].
    + intros [_ ->]. f_equal. set_solver.
  - rewrite template_key_step. destruct (template_key v) as [k|] eqn:Hk.
    + rewrite IH. split.
      * intros [Hall ->]. split; [by constructor |].
        simpl. set_solver.
      * intros [Hall ->]. apply Forall_cons in Hall as [_ Hall].
        split; [done |]. simpl. set_solver.
    + split; [done |]. intros [Hall _].
      apply Forall_cons in Hall as [[? ?] _]. congruence.
Qed.

Lemma key_in_has_version versions template :
  key_in (list_to_set (omap template_key versions) ∪ ∅) template ↔
  has_version versions template.
Proof.
  unfold key_in, has_version.
  destruct (template_key template) as [k|] eqn:Hk.
  - rewrite elem_of_union, elem_of_list_to_set, list_elem_of_omap, Exists_exists.
    split.
    + intros [(v & ? & ?)|[]%not_elem_of_empty]. eauto.
    + intros [_ (v & ? & ?)]. left. eauto.
  - split; [done |]. by intros [[? [=]] _].
Qed.

Lemma transform_launch_templates_loop_Ok valid templates result out :
  transform_launch_templates_loop valid templates result = Ok out ↔
  Forall (λ t, is_Some (template_key t)) templates ∧
  ∃ emitted, Forall2 emitted_from (filter (key_in valid) templates) emitted ∧
             out = result ++ emitted.
Proof.
  revert result. induction templates as [|template templates IH]; intros result.
  - simpl. split.
    + intros [= <-]. split; [constructor |]. exists []. split; [constructor |].
      by rewrite app_nil_r.
    + intros (_ & emitted & ->%Forall2_nil_inv_l & ->). by rewrite app_nil_r.
  - cbn [transform_launch_templates_loop]. rewrite template_key_step.
    rewrite Forall_cons.
    destruct (template_key template) as [k|] eqn:Hk; cycle 1.
    { split; [done |]. intros [[[? ?] _] _]. congruence. }
    destruct (decide (k ∉ valid)) as [Hout|Hin].
    + rewrite filter_cons_False by (unfold key_in; by rewrite Hk).
      rewrite IH. naive_solver.
    + apply dec_stable in Hin.
      rewrite filter_cons_True by (unfold key_in; by rewrite Hk).
      rewrite bind_Ok. setoid_rewrite bind_Ok.
      setoid_rewrite getitem_Ok. setoid_rewrite timestamp_string_Ok.
      setoid_rewrite IH. split.
      * intros (c & Hc & s & (us & -> & ->) & Hall & emitted & Hem & ->).
        split; [eauto |].
        exists (<["CreateTime" := epoch_seconds_string us]> template :: emitted).
        split; [| by rewrite <- app_assoc].
        constructor; [by exists us | done].
      * intros ([_ Hall] & emitted' & Hem & ->).
        apply Forall2_cons_inv_l in Hem as (o & emitted & (us & Hus & ->) & Hem & ->).
        exists (VDatetime us). split; [done |].
        eexists. split; [by exists us |].
        split; [done |]. exists emitted. split; [done |].
        by rewrite <- app_assoc.
Qed.

Lemma transform_launch_templates_Ok templates versions out :
  transform_launch_templates templates versions = Ok out ↔
  Forall (λ v, is_Some (template_key v)) versions ∧
  Forall (λ t, is_Some (template_key t)) templates ∧
  Forall2 emitted_from (filter (has_version versions) templates) out.
Proof.
  unfold transform_launch_templates. rewrite bind_Ok.
  setoid_rewrite template_id_set_Ok.
  setoid_rewrite transform_launch_templates_loop_Ok.
  rewrite <- (list_filter_iff _ _ templates (λ t, key_in_has_version versions t)).
  split.
  - intros (valid & [? ->] & ? & emitted & ? & ->). done.
  - intros (? & ? & ?). eexists. split; [done |]. split; [done |]. by exists out.
Qed.

Lemma emitted_from_key t o : emitted_from t o → template_key o = template_key t.
Proof.
  intros (us & _ & ->). unfold template_key. by rewrite lookup_insert_ne.
Qed.

Lemma emitted_from_has_version versions t o :
  emitted_from t o → has_version versions o ↔ has_version versions t.
Proof. intros Hem. unfold has_version. by rewrite (emitted_from_key _ _ Hem). Qed.

Lemma filter_none {A} (P : A → Prop) `{∀ x, Decision (P x)} l :
  Forall (λ x, ¬ P x) l → filter P l = [].
Proof.
  induction 1 as [|x l Hx _ IH]; [done |]. by rewrite filter_cons_False.
Qed.

Lemma Forall2_elem_of_l {A B} (R : A → B → Prop) l k x :
  Forall2 R l k → x ∈ l → ∃ y, y ∈ k ∧ R x y.
Proof.
  intros Hall [i Hi]%list_elem_of_lookup.
  destruct (Forall2_lookup_l _ _ _ _ _ Hall Hi) as (y & Hy & ?).
  exists y. split; [| done]. apply list_elem_of_lookup. eauto.
Qed.

Lemma Forall2_elem_of_r {A B} (R : A → B → Prop) l k y :
  Forall2 R l k → y ∈ k → ∃ x, x ∈ l ∧ R x y.
Proof.
  intros Hall [i Hi]%list_elem_of_lookup.
  destruct (Forall2_lookup_r _ _ _ _ _ Hall Hi) as (x & Hx & ?).
  exists x. split; [| done]. apply list_elem_of_lookup. eauto.
Qed.

(** C1: the template transform emits, in input order, exactly the templates
    whose LaunchTemplateId occurs in some version record, each with its
    creation time rewritten; a template with a version is emitted, one
    without is not.  It returns whenever every record carries a hashable id
    and every kept template a datetime. *)
Theorem transform_launch_templates_orphan_filter templates versions :
  (∀ out, transform_launch_templates templates versions = Ok out →
     Forall2 emitted_from (filter (has_version versions) templates) out ∧
     (∀ t, t ∈ templates → has_version versions t → ∃ o, o ∈ out ∧ emitted_from t o) ∧
     (∀ t, t ∈ templates → ¬ has_version versions t → ∀ o, o ∈ out → ¬ emitted_from t o) ∧
     (∀ o, o ∈ out → has_version versions o)) ∧
  (Forall (λ v, is_Some (template_key v)) versions →
   Forall (λ t, is_Some (template_key t)) templates →
   Forall (λ t, has_version versions t →
                ∃ us, t !! "CreateTime" = Some (VDatetime us)) templates →
   ∃ out, transform_launch_templates templates versions = Ok out).
Proof.
  split.
  - intros out (_ & _ & Hall)%transform_launch_templates_Ok.
    assert (Hout : ∀ o, o ∈ out → has_version versions o).
    { intros o Ho.
      destruct (Forall2_elem_of_r _ _ _ _ Hall Ho) as (t & [? _]%list_elem_of_filter & Hem).
      by apply (emitted_from_has_version _ _ _ Hem). }
    split_and!; [done | | | done].
    + intros t Ht Hv. apply (Forall2_elem_of_l _ _ _ _ Hall).
      by apply list_elem_of_filter.
    + intros t Ht Hv o Ho Hem. apply Hv.
      apply (emitted_from_has_version _ _ _ Hem). by apply Hout.
  - intros Hvs Hts Hct.
    cut (∃ out, Forall2 emitted_from (filter (has_version versions) templates) out).
    { intros [out ?]. exists out. by apply transform_launch_templates_Ok. }
    clear Hts. induction Hct as [|t templates Ht _ [out IH]].
    + exists []. constructor.
    + destruct (decide (has_version versions t)) as [Hv|Hv].
      * rewrite filter_cons_True by done. destruct (Ht Hv) as [us Hus].
        eexists (_ :: out). constructor; [by exists us | done].
      * rewrite filter_cons_False by done. by exists out.
Qed.

(** ** Timestamps *)

(** Rounding a quotient scaled by at least [2 ^ 19] never reaches the next
    multiple of the scale: a microsecond is more than half a unit. *)
Lemma round_scaled_div n P m :
  0 ≤ n → 2 ^ 19 ≤ P →
  (n * P) / 10 ^ 6 ≤ m ≤ (n * P) / 10 ^ 6 + 1 →
  (m = (n * P) / 10 ^ 6 + 1 → 10 ^ 6 ≤ 2 * ((n * P) mod 10 ^ 6)) →
  m / P = n / 10 ^ 6.
Proof.
  intros Hn HP Hm Hup.
  change (2 ^ 19) with 524288 in HP. change (10 ^ 6) with 1000000 in *.
  pose proof (Z.div_mod (n * P) 1000000 ltac:(done)) as Hnum.
  pose proof (Z.mod_pos_bound (n * P) 1000000 ltac:(done)) as Hr.
  pose proof (Z.div_mod n 1000000 ltac:(done)) as Hdiv.
  pose proof (Z.mod_pos_bound n 1000000 ltac:(done)) as Hf.
  set (q := n * P / 1000000) in *. set (r := (n * P) mod 1000000) in *.
  set (N := n / 1000000) in *. set (f := n mod 1000000) in *.
  symmetry. apply (Z.div_unique_pos m P N (m - N * P)); [| lia].
  assert (N * P ≤ q) by nia.
  assert (q < (N + 1) * P) by nia.
  split; [lia |].
  destruct (decide (m = q + 1)) as [->|]; [| lia].
  specialize (Hup eq_refl). nia.
Qed.

(** The exponent [true_divide] settles on is at most [-19] for a numerator
    below [2 ^ 34] seconds. *)
Lemma scaled_exponent n :
  0 < n < 2 ^ 34 * 10 ^ 6 →
  let e0 := Z.log2 n - Z.log2 (10 ^ 6) - 52 in
  e0 - 1 ≤ -19 ∧ (e0 ≤ -19 ∨ (e0 = -18 ∧ n * 2 ^ 18 / 10 ^ 6 < 2 ^ 52)).
Proof.
  intros [Hpos Hlt]. change (Z.log2 (10 ^ 6)) with 19. cbn zeta.
  assert (Z.log2 n < 54).
  { apply Z.log2_lt_pow2; [done |]. change (2 ^ 34 * 10 ^ 6) with 17179869184000000 in Hlt.
    change (2 ^ 54) with 18014398509481984. lia. }
  split; [lia |].
  destruct (decide (Z.log2 n - 19 - 52 ≤ -19)) as [|Hbig]; [by left | right].
  split; [lia |].
  apply Z.div_lt_upper_bound; [done |].
  change (2 ^ 34 * 10 ^ 6) with 17179869184000000 in Hlt.
  change (2 ^ 18) with 262144. change (10 ^ 6 * 2 ^ 52) with 4503599627370496000000. lia.
Qed.

Lemma true_divide_micros_pos n :
  0 < n < 2 ^ 34 * 10 ^ 6 →
  ∃ m k, 19 ≤ k ∧ 0 ≤ m ∧ m / 2 ^ k = n / 10 ^ 6 ∧
         ∀ a, Z.abs a = n → true_divide a (10 ^ 6) = MkFloat (Z.sgn a * m) (- k).
Proof.
  intros Hn. pose proof (scaled_exponent n Hn) as [Hlow Hcase]. cbn zeta in *.
  set (e0 := Z.log2 n - Z.log2 (10 ^ 6) - 52) in *.
  set (e := if decide (n * 2 ^ (- e0) / 10 ^ 6 < 2 ^ 52) then e0 - 1 else e0).
  assert (He : e ≤ -19).
  { unfold e. case_decide as Hq; [done |]. destruct Hcase as [|[He0 Hlt]]; [done |].
    rewrite He0 in Hq. by destruct Hq. }
  set (num := n * 2 ^ (- e)). set (q := num / 10 ^ 6). set (r := num mod 10 ^ 6).
  set (m := if decide (10 ^ 6 < 2 * r) then q + 1
            else if decide (10 ^ 6 = 2 * r) then (if Z.odd q then q + 1 else q)
            else q).
  assert (Hpow : 2 ^ 19 ≤ 2 ^ (- e)) by (apply Z.pow_le_mono_r; lia).
  assert (0 ≤ q).
  { apply Z.div_pos; [| done]. unfold num. change (2 ^ 19) with 524288 in Hpow. nia. }
  exists m, (- e). split_and!.
  - lia.
  - unfold m. repeat case_decide; try destruct (Z.odd q); lia.
  - apply round_scaled_div; [lia | done | |]; fold num; fold q; fold r.
    + unfold m. repeat case_decide; try destruct (Z.odd q); lia.
    + unfold m. repeat case_decide; try destruct (Z.odd q); lia.
  - intros a Ha. unfold true_divide.
    rewrite decide_False by lia. rewrite Ha. fold e0.
    assert (He0 : ¬ 0 ≤ e0) by lia.
    rewrite (decide_False (P := 0 ≤ e0)) by done. cbn [fst snd]. fold e.
    rewrite (decide_False (P := 0 ≤ e)) by lia.
    fold num. fold q. fold r. fold m. by rewrite Z.opp_involutive.
Qed.

(** [int(dt.timestamp())] is the whole number of seconds, cut towards zero,
    for every datetime less than [2 ^ 34] seconds from the epoch. *)
Lemma int_of_timestamp us :
  Z.abs us < 2 ^ 34 * 10 ^ 6 →
  int_of_float (datetime_timestamp us) = Z.quot us (10 ^ 6).
Proof.
  intros Hus. unfold datetime_timestamp.
  destruct (decide (us = 0)) as [->|Hne]; [done |].
  destruct (true_divide_micros_pos (Z.abs us) ltac:(lia)) as (m & k & Hk & Hm & Hdiv & Hfl).
  rewrite (Hfl us eq_refl). unfold int_of_float. cbn [fexp fmant].
  rewrite decide_False by lia. rewrite Z.opp_involutive.
  assert (0 < 2 ^ k) by (apply Z.pow_pos_nonneg; lia).
  destruct (Z.lt_trichotomy us 0) as [Hneg|[?|Hpos]]; [| done |].
  - assert (Hl : (Z.sgn us * m) ÷ 2 ^ k = - (m / 2 ^ k)).
    { rewrite (Z.sgn_neg us) by done. replace (-1 * m) with (- m) by lia.
      rewrite Z.quot_opp_l by lia. by rewrite Z.quot_div_nonneg by lia. }
    assert (Hr : us ÷ 10 ^ 6 = - (Z.abs us / 10 ^ 6)).
    { replace us with (- Z.abs us) at 1 by lia.
      rewrite Z.quot_opp_l by lia. by rewrite Z.quot_div_nonneg by lia. }
    by rewrite Hl, Hr, Hdiv.
  - rewrite (Z.sgn_pos us) by done. rewrite Z.mul_1_l.
    rewrite (Z.quot_div_nonneg m), (Z.quot_div_nonneg us) by lia.
    rewrite Hdiv. f_equal. lia.
Qed.

(** ** Fetching *)

Lemma extend_pages_spec {P} (items : P → list dict) ps acc :
  extend_pages items ps acc =
    (acc ++ concat (map items (pages_received ps)), pages_error ps).
Proof.
  revert acc. induction ps as [|page rest IH|e]; intros acc; simpl.
  - by rewrite app_nil_r.
  - by rewrite IH, app_assoc.
  - by rewrite app_nil_r.
Qed.

Section SyncFacts.

Context {ec2 neo4j : Type}.

Variable str_other : value → string.
Variable paginate_launch_templates : string → ec2 → pages templates_page * ec2.
Variable paginate_launch_template_versions :
  value → string → ec2 → pages versions_page * ec2.
Variable load : schema → list dict → string → string → Z → neo4j → pyresult unit * neo4j.
Variable graph_job_run : schema → dict → neo4j → pyresult unit * neo4j.

Implicit Types w : @world ec2 neo4j.

Lemma run_bind {A B} (m : M A) (f : A → M B) w :
  (m ≫= f) w = match m w with
               | (Ok a, w') => f a w'
               | (Raise e, w') => (Raise e, w')
               end.
Proof. done. Qed.

(** What one per-template fetch does, by the way its pagination ends. *)
Lemma get_launch_template_versions_by_template_run launch_template_id region w :
  let ps := (paginate_launch_template_versions launch_template_id region (ec2_state w)).1 in
  let s := (paginate_launch_template_versions launch_template_id region (ec2_state w)).2 in
  let received := concat (map LaunchTemplateVersions (pages_received ps)) in
  let called := trace w ++ [DescribeLaunchTemplateVersions launch_template_id region] in
  get_launch_template_versions_by_template paginate_launch_template_versions
    launch_template_id region w =
  match pages_error ps with
  | None => (Ok received, World s (graph_state w) called)
  | Some (ClientError error_code) =>
      if decide (error_code = "InvalidLaunchTemplateId.NotFound") then
        (Ok received,
         World s (graph_state w)
           (called ++ [LogWarning "Launch template %s no longer exists in region %s"
                                  [launch_template_id; VStr region]]))
      else (Raise (ClientError error_code), World s (graph_state w) called)
  | Some e => (Raise e, World s (graph_state w) called)
  end.
Proof.
  cbn zeta.
  unfold get_launch_template_versions_by_template, timeit, aws_handle_regions, call_ec2.
  rewrite !run_bind. unfold emit at 1, step_ec2. cbn [ec2_state graph_state trace].
  destruct (paginate_launch_template_versions launch_template_id region (ec2_state w))
    as [ps s].
  rewrite extend_pages_spec. cbn [fst snd app].
  destruct (pages_error ps) as [[| | |error_code|]|]; try done.
  case_decide; done.
Qed.

Lemma get_launch_template_versions_loop_cons region template templates acc w :
  get_launch_template_versions_loop paginate_launch_template_versions region
    (template :: templates) acc w =
  match template !! "LaunchTemplateId" with
  | None => (Raise (KeyError "LaunchTemplateId"), w)
  | Some launch_template_id =>
      match get_launch_template_versions_by_template paginate_launch_template_versions
              launch_template_id region w with
      | (Ok versions, w1) =>
          get_launch_template_versions_loop paginate_launch_template_versions region
            templates (acc ++ versions) w1
      | (Raise e, w1) => (Raise e, w1)
      end
  end.
Proof.
  cbn [get_launch_template_versions_loop]. rewrite run_bind.
  unfold lift, getitem. by destruct (template !! "LaunchTemplateId").
Qed.

Lemma get_launch_template_versions_loop_chain region templates rest acc w rs w1 :
  fetch_chain paginate_launch_template_versions region templates w rs w1 →
  get_launch_template_versions_loop paginate_launch_template_versions region
    (templates ++ rest) acc w =
  get_launch_template_versions_loop paginate_launch_template_versions region
    rest (acc ++ concat rs) w1.
Proof.
  intros Hchain. revert acc.
  induction Hchain as [w|template templates i versions rs w w1 w2 Hid Hrun _ IH];
    intros acc.
  - by rewrite app_nil_r.
  - rewrite <- app_comm_cons, get_launch_template_versions_loop_cons, Hid, Hrun, IH.
    simpl. by rewrite app_assoc.
Qed.

Lemma get_launch_template_versions_loop_Ok region templates acc w vs w' :
  get_launch_template_versions_loop paginate_launch_template_versions region
    templates acc w = (Ok vs, w') →
  ∃ rs, fetch_chain paginate_launch_template_versions region templates w rs w' ∧
        vs = acc ++ concat rs.
Proof.
  revert acc w. induction templates as [|template templates IH]; intros acc w.
  - intros [= <- <-]. exists []. split; [constructor | by rewrite app_nil_r].
  - rewrite get_launch_template_versions_loop_cons.
    destruct (template !! "LaunchTemplateId") as [i|] eqn:Hid; [|done].
    destruct (get_launch_template_versions_by_template _ i region w)
      as [[versions|e] w1] eqn:Hrun; [|done].
    intros (rs & Hchain & ->)%IH. exists (versions :: rs).
    split; [by econstructor |]. simpl. by rewrite app_assoc.
Qed.

Lemma fetch_chain_trace region templates w rs w' :
  fetch_chain paginate_launch_template_versions region templates w rs w' →
  ∃ ids t,
    Forall2 (λ template i, template !! "LaunchTemplateId" = Some i) templates ids ∧
    trace w' = trace w ++ t ∧
    version_fetches t = map (λ i, (i, region)) ids ∧
    Forall (is_version_fetch region) t.
Proof.
  induction 1 as [w|template templates i versions rs w w1 w2 Hid Hrun _
                    (ids & t & Hids & Ht & Hfetch & Hall)].
  - exists [], []. by rewrite app_nil_r.
  - rewrite get_launch_template_versions_by_template_run in Hrun. cbn zeta in Hrun.
    assert (∃ t1, trace w1 = trace w ++ t1 ∧ version_fetches t1 = [(i, region)] ∧
                  Forall (is_version_fetch region) t1) as (t1 & Ht1 & Hf1 & Hall1).
    { destruct (pages_error _) as [[| | |error_code|]|]; try done.
      - case_decide; [|done]. injection Hrun as _ <-. cbn [trace].
        eexists [_; _]. rewrite <- app_assoc. split; [done |]. split; [done |].
        by repeat constructor.
      - injection Hrun as _ <-. cbn [trace].
        eexists [_]. split; [done |]. split; [done |]. by repeat constructor. }
    exists (i :: ids), (t1 ++ t). split_and!.
    + by constructor.
    + by rewrite Ht, Ht1, app_assoc.
    + unfold version_fetches in *. rewrite omap_app, Hf1, Hfetch. done.
    + by apply Forall_app.
Qed.

(** C8: a successful call runs the per-template fetch once for each template,
    in list order, and returns the results concatenated in that order; the
    version paginations in the trace are those of the templates' ids, one
    each.  Conversely such a chain of fetches makes the call succeed. *)
Theorem get_launch_template_versions_concat region launch_templates w :
  (∀ template_versions w',
     get_launch_template_versions paginate_launch_template_versions region
       launch_templates w = (Ok template_versions, w') →
     ∃ rs ids t,
       fetch_chain paginate_launch_template_versions region launch_templates w rs w' ∧
       template_versions = concat rs ∧
       length rs = length launch_templates ∧
       Forall2 (λ template i, template !! "LaunchTemplateId" = Some i)
               launch_templates ids ∧
       trace w' = trace w ++ t ∧
       version_fetches t = map (λ i, (i, region)) ids) ∧
  (∀ rs w',
     fetch_chain paginate_launch_template_versions region launch_templates w rs w' →
     get_launch_template_versions paginate_launch_template_versions region
       launch_templates w = (Ok (concat rs), w')).
Proof.
  split.
  - intros vs w' (rs & Hchain & ->)%get_launch_template_versions_loop_Ok.
    destruct (fetch_chain_trace _ _ _ _ _ Hchain) as (ids & t & Hids & Ht & Hf & _).
    exists rs, ids, t. split_and!; try done.
    clear -Hchain. induction Hchain; simpl; congruence.
  - intros rs w' Hchain.
    unfold get_launch_template_versions, timeit, aws_handle_regions.
    rewrite <- (app_nil_r launch_templates).
    by rewrite (get_launch_template_versions_loop_chain _ _ _ _ _ _ _ Hchain).
Qed.

(** ** The trace of a run *)

Lemma appends_weaken {A} (m : @M ec2 neo4j A) (Q Q' : pyresult A → list event → Prop) :
  appends m Q → (∀ r t, Q r t → Q' r t) → appends m Q'.
Proof. intros Hm HQ w. destruct (Hm w) as (t & ? & ?). eauto. Qed.

Lemma appends_bind {A B} (m : @M ec2 neo4j A) (f : A → M B)
    (Q : pyresult A → list event → Prop) (R : A → pyresult B → list event → Prop) :
  appends m Q → (∀ a, appends (f a) (R a)) →
  appends (m ≫= f) (λ r t,
    (∃ e, r = Raise e ∧ Q (Raise e) t) ∨
    (∃ a t1 t2, Q (Ok a) t1 ∧ R a r t2 ∧ t = t1 ++ t2)).
Proof.
  intros Hm Hf w. rewrite run_bind.
  destruct (Hm w) as (t1 & Ht1 & HQ). destruct (m w) as [[a|e] w1]; simpl in *.
  - destruct (Hf a w1) as (t2 & Ht2 & HR).
    exists (t1 ++ t2). split; [by rewrite Ht2, Ht1, app_assoc |].
    right. by exists a, t1, t2.
  - exists t1. split; [done |]. left. by exists e.
Qed.

Lemma appends_emit ev :
  appends (ec2 := ec2) (neo4j := neo4j) (emit ev) (λ r t, r = Ok tt ∧ t = [ev]).
Proof. intros w. by exists [ev]. Qed.

Lemma appends_lift {A} (x : pyresult A) :
  appends (ec2 := ec2) (neo4j := neo4j) (lift x) (λ r t, r = x ∧ t = []).
Proof. intros w. exists []. by rewrite app_nil_r. Qed.

Lemma appends_mret {A} (a : A) :
  appends (ec2 := ec2) (neo4j := neo4j) (mret a) (λ r t, r = Ok a ∧ t = []).
Proof. intros w. exists []. by rewrite app_nil_r. Qed.

Lemma appends_call_graph ev (f : neo4j → pyresult unit * neo4j) :
  appends (ec2 := ec2) (neo4j := neo4j) (call_graph ev f) (λ r t, t = [ev]).
Proof.
  intros w. unfold call_graph. rewrite run_bind. unfold emit, step_graph.
  cbn [graph_state ec2_state trace]. destruct (f (graph_state w)). by exists [ev].
Qed.

Lemma appends_get_launch_templates region :
  appends (ec2 := ec2) (neo4j := neo4j) (get_launch_templates paginate_launch_templates region)
          (λ r t, t = [DescribeLaunchTemplates region]).
Proof.
  intros w. unfold get_launch_templates, timeit, aws_handle_regions, call_ec2.
  rewrite !run_bind.
  unfold emit, step_ec2. cbn [graph_state ec2_state trace].
  destruct (paginate_launch_templates region (ec2_state w)) as [ps s].
  destruct (extend_pages LaunchTemplates ps []) as [templates [e|]]; by eexists.
Qed.

Lemma appends_get_launch_template_versions_by_template launch_template_id region :
  appends (ec2 := ec2) (neo4j := neo4j) (get_launch_template_versions_by_template paginate_launch_template_versions
             launch_template_id region)
          (λ r t, Forall (is_version_fetch region) t).
Proof.
  intros w. rewrite get_launch_template_versions_by_template_run. cbn zeta.
  destruct (pages_error _) as [[| | |error_code|]|];
    try (eexists [_]; split; [done | by repeat constructor]).
  case_decide.
  - eexists [_; _]. cbn [trace snd]. rewrite <- app_assoc.
    split; [done | by repeat constructor].
  - eexists [_]. split; [done | by repeat constructor].
Qed.

Lemma appends_get_launch_template_versions_loop region templates acc :
  appends (ec2 := ec2) (neo4j := neo4j) (get_launch_template_versions_loop paginate_launch_template_versions
             region templates acc)
          (λ r t, Forall (is_version_fetch region) t).
Proof.
  revert acc. induction templates as [|template templates IH]; intros acc.
  - intros w. exists []. by rewrite app_nil_r.
  - cbn [get_launch_template_versions_loop].
    eapply appends_weaken.
    { eapply appends_bind; [apply appends_lift |]. intros launch_template_id.
      eapply appends_bind;
        [apply appends_get_launch_template_versions_by_template |].
      intros versions. apply IH. }
    intros r t [(e & _ & _ & ->)|(i & t1 & t2 & [_ ->] & Hrest & ->)]; [constructor |].
    destruct Hrest as [(e & _ & ?)|(vs & t3 & t4 & ? & ? & ->)]; [done |].
    simpl. apply Forall_app. by split.
Qed.

Lemma version_fetch_not_job_run region t :
  Forall (is_version_fetch region) t → Forall (λ ev, ¬ is_job_run ev) t.
Proof. intros H. eapply Forall_impl; [done |]. intros ev Hf Hj. by destruct ev. Qed.

(** Breaks the outcome of a chain of [appends_bind] into its cases. *)
Ltac split_outcome :=
  repeat match goal with
         | H : _ ∨ _ |- _ => destruct H as [H|H]
         | H : ∃ _, _ |- _ => destruct H as [? H]
         | H : _ ∧ _ |- _ => destruct H as [? ?]
         end;
  simplify_eq.

(** Closes a goal that says a concrete trace holds no job run. *)
Ltac no_job_run :=
  cbn [app];
  repeat first
    [ apply Forall_nil_2
    | apply Forall_cons; split; [by intros [] |]
    | apply Forall_app; split
    | by eapply version_fetch_not_job_run; eassumption ].

Lemma appends_sync_region region current_aws_account_id update_tag :
  appends (ec2 := ec2) (neo4j := neo4j)
    (sync_region str_other paginate_launch_templates paginate_launch_template_versions
       load region current_aws_account_id update_tag)
    (λ r t, match r with
            | Ok _ => region_segment current_aws_account_id update_tag region t
            | Raise _ => Forall (λ ev, ¬ is_job_run ev) t
            end).
Proof.
  unfold sync_region, get_launch_template_versions,
    load_launch_templates, load_launch_template_versions, timeit, aws_handle_regions.
  eapply appends_weaken.
  { eapply appends_bind; [apply appends_emit |]. intros ?.
    eapply appends_bind; [apply appends_get_launch_templates |]. intros templates.
    eapply appends_bind; [apply appends_get_launch_template_versions_loop |].
    intros versions.
    eapply appends_bind; [apply appends_lift |]. intros transformed_templates.
    eapply appends_bind; [apply appends_call_graph |]. intros ?.
    eapply appends_bind; [apply appends_lift |]. intros transformed_versions.
    apply appends_call_graph. }
  cbv beta. intros r t H. split_outcome; try no_job_run.
  destruct r as [[]|e]; [| no_job_run].
  eexists _, _, _. split; [eassumption | done].
Qed.

Lemma region_segment_no_job_run current_aws_account_id update_tag region seg :
  region_segment current_aws_account_id update_tag region seg →
  Forall (λ ev, ¬ is_job_run ev) seg.
Proof. intros (fetches & templates & versions & Hf & ->). no_job_run. Qed.

Lemma segments_no_job_run current_aws_account_id update_tag regions segs :
  Forall2 (region_segment current_aws_account_id update_tag) regions segs →
  Forall (λ ev, ¬ is_job_run ev) (concat segs).
Proof.
  induction 1 as [|region seg regions segs Hseg _ IH]; simpl; [constructor |].
  apply Forall_app. split; [| done]. by eapply region_segment_no_job_run.
Qed.

Lemma appends_sync_regions regions current_aws_account_id update_tag :
  appends (ec2 := ec2) (neo4j := neo4j)
    (sync_regions str_other paginate_launch_templates paginate_launch_template_versions
       load regions current_aws_account_id update_tag)
    (λ r t, match r with
            | Ok _ => ∃ segs,
                Forall2 (region_segment current_aws_account_id update_tag) regions segs ∧
                t = concat segs
            | Raise _ => Forall (λ ev, ¬ is_job_run ev) t
            end).
Proof.
  induction regions as [|region regions IH]; cbn [sync_regions].
  - eapply appends_weaken; [apply appends_mret |].
    intros r t [-> ->]. exists []. by split.
  - eapply appends_weaken.
    { eapply appends_bind; [apply appends_sync_region |]. intros ?. apply IH. }
    cbv beta. intros r t [(e & -> & ?)|(a & t1 & t2 & Hseg & Hrest & ->)]; [done |].
    destruct r as [[]|e].
    + destruct Hrest as (segs & ? & ->). exists (t1 :: segs). split; [by constructor | done].
    + apply Forall_app. split; [| done]. by eapply region_segment_no_job_run.
Qed.

Lemma appends_cleanup common_job_parameters :
  appends (ec2 := ec2) (neo4j := neo4j) (cleanup graph_job_run common_job_parameters)
    (λ r t, match r with
            | Ok _ => t = cleanup_events common_job_parameters
            | Raise _ => t `prefix_of` cleanup_events common_job_parameters
            end).
Proof.
  unfold cleanup, timeit. eapply appends_weaken.
  { eapply appends_bind; [apply appends_emit |]. intros ?.
    eapply appends_bind; [apply appends_call_graph |]. intros ?.
    apply appends_call_graph. }
  cbv beta. intros r t H. split_outcome.
  - by eexists [_].
  - by destruct r; [| exists []].
Qed.

Lemma call_graph_outcome ev (f : neo4j → pyresult unit * neo4j) w :
  call_graph ev f w =
    ((f (graph_state w)).1,
     World (ec2_state w) (f (graph_state w)).2 (trace w ++ [ev])).
Proof.
  unfold call_graph. rewrite run_bind. unfold emit, step_graph.
  cbn [graph_state ec2_state trace]. by destruct (f (graph_state w)).
Qed.

(** What [cleanup] does, by the outcome of its first job. *)
Lemma cleanup_outcome common_job_parameters w :
  cleanup graph_job_run common_job_parameters w =
  match graph_job_run LaunchTemplateSchema common_job_parameters (graph_state w) with
  | (Raise e, g) =>
      (Raise e,
       World (ec2_state w) g
         (trace w ++ [ LogInfo "Running launch template cleanup job.";
                       GraphJobRun LaunchTemplateSchema common_job_parameters ]))
  | (Ok _, g) =>
      ((graph_job_run LaunchTemplateVersionSchema common_job_parameters g).1,
       World (ec2_state w)
         (graph_job_run LaunchTemplateVersionSchema common_job_parameters g).2
         (trace w ++ cleanup_events common_job_parameters))
  end.
Proof.
  unfold cleanup, timeit. rewrite run_bind. cbn [emit].
  rewrite run_bind, call_graph_outcome. cbn [graph_state ec2_state trace].
  destruct (graph_job_run LaunchTemplateSchema _ _) as [[[]|e] g]; cbn [fst snd].
  - rewrite call_graph_outcome. cbn [graph_state ec2_state trace].
    by rewrite <- !app_assoc.
  - by rewrite <- !app_assoc.
Qed.

(** C6: a run that completes has appended one complete segment per region, in
    region order, and then the events of one cleanup: the graph job once for
    the template schema and once for the version schema, and no job run
    anywhere else.  A run that aborts has run no job at all, unless every
    region had completed and the cleanup itself was under way.  Once the
    passes over all the regions have completed, [cleanup] is called, once, on
    the world they left: it logs its message and runs the job of the template
    schema, then the job of the version schema unless the first one failed.
    When a pass fails, [cleanup] is not called at all. *)
Theorem cleanup_once_after_all_regions regions current_aws_account_id update_tag
    common_job_parameters w :
  let run := sync_ec2_launch_templates str_other paginate_launch_templates
               paginate_launch_template_versions load graph_job_run
               regions current_aws_account_id update_tag common_job_parameters w in
  let passes := sync_regions str_other paginate_launch_templates
                  paginate_launch_template_versions load
                  regions current_aws_account_id update_tag w in
  (∃ t, trace run.2 = trace w ++ t ∧
    match run.1 with
    | Ok _ =>
        ∃ segs,
          Forall2 (region_segment current_aws_account_id update_tag) regions segs ∧
          t = concat segs ++ cleanup_events common_job_parameters ∧
          filter is_job_run t =
            [ GraphJobRun LaunchTemplateSchema common_job_parameters;
              GraphJobRun LaunchTemplateVersionSchema common_job_parameters ]
    | Raise _ =>
        Forall (λ ev, ¬ is_job_run ev) t ∨
        ∃ segs started,
          Forall2 (region_segment current_aws_account_id update_tag) regions segs ∧
          t = concat segs ++ started ∧
          started `prefix_of` cleanup_events common_job_parameters
    end) ∧
  (∀ w1, passes = (Ok tt, w1) →
     (∃ segs,
        Forall2 (region_segment current_aws_account_id update_tag) regions segs ∧
        trace w1 = trace w ++ concat segs) ∧
     run =
       match graph_job_run LaunchTemplateSchema common_job_parameters (graph_state w1) with
       | (Raise e, g) =>
           (Raise e,
            World (ec2_state w1) g
              (trace w1 ++ [ LogInfo "Running launch template cleanup job.";
                             GraphJobRun LaunchTemplateSchema common_job_parameters ]))
       | (Ok _, g) =>
           ((graph_job_run LaunchTemplateVersionSchema common_job_parameters g).1,
            World (ec2_state w1)
              (graph_job_run LaunchTemplateVersionSchema common_job_parameters g).2
              (trace w1 ++ cleanup_events common_job_parameters))
       end) ∧
  (∀ e w1, passes = (Raise e, w1) →
     run = (Raise e, w1) ∧
     ∃ t, trace w1 = trace w ++ t ∧ Forall (λ ev, ¬ is_job_run ev) t).
Proof.
  cbn zeta. split_and!.
  - unfold sync_ec2_launch_templates, timeit.
    eapply (appends_weaken _ _ (λ r t, match r with Ok _ => _ | Raise _ => _ end)).
    { eapply appends_bind; [apply appends_sync_regions |]. intros ?.
      apply appends_cleanup. }
    cbv beta.
    intros r t [(e & -> & ?)|([] & t1 & t2 & (segs & Hsegs & ->) & Hclean & ->)];
      [by left |].
    destruct r as [[]|e].
    + subst t2. exists segs. split_and!; [done | done |].
      rewrite filter_app, (filter_none is_job_run (concat segs)); [done |].
      by eapply segments_no_job_run.
    + right. by exists segs, t2.
  - intros w1 Hpasses. split.
    + destruct (appends_sync_regions regions current_aws_account_id update_tag w)
        as (t & Ht & Hcase).
      rewrite Hpasses in Ht, Hcase. cbn [fst snd] in Ht, Hcase.
      destruct Hcase as (segs & Hsegs & ->). by exists segs.
    + unfold sync_ec2_launch_templates, timeit.
      rewrite run_bind, Hpasses. apply cleanup_outcome.
  - intros e w1 Hpasses. split.
    + unfold sync_ec2_launch_templates, timeit. by rewrite run_bind, Hpasses.
    + destruct (appends_sync_regions regions current_aws_account_id update_tag w)
        as (t & Ht & Hcase).
      rewrite Hpasses in Ht, Hcase. cbn [fst snd] in Ht, Hcase. by exists t.
Qed.

(** ** Errors reach the caller *)

Lemma sync_region_run region current_aws_account_id update_tag w :
  sync_region str_other paginate_launch_templates paginate_launch_template_versions
    load region current_aws_account_id update_tag w =
  match get_launch_templates paginate_launch_templates region
          (emit (sync_start region current_aws_account_id) w).2 with
  | (Raise e, w1) => (Raise e, w1)
  | (Ok templates, w1) =>
      match get_launch_template_versions paginate_launch_template_versions
              region templates w1 with
      | (Raise e, w2) => (Raise e, w2)
      | (Ok versions, w2) =>
          match transform_launch_templates templates versions with
          | Raise e => (Raise e, w2)
          | Ok transformed_templates =>
              match load_launch_templates load transformed_templates region
                      current_aws_account_id update_tag w2 with
              | (Raise e, w3) => (Raise e, w3)
              | (Ok _, w3) =>
                  match transform_launch_template_versions str_other versions with
                  | Raise e => (Raise e, w3)
                  | Ok transformed_versions =>
                      load_launch_template_versions load transformed_versions region
                        current_aws_account_id update_tag w3
                  end
              end
          end
      end
  end.
Proof.
  unfold sync_region. rewrite run_bind. cbn [emit snd]. rewrite run_bind.
  destruct (get_launch_templates _ _ _) as [[templates|e] w1]; [|done].
  rewrite run_bind.
  destruct (get_launch_template_versions _ _ _ _) as [[versions|e] w2]; [|done].
  rewrite run_bind. unfold lift at 1.
  destruct (transform_launch_templates templates versions) as [tts|e]; [|done].
  rewrite run_bind.
  destruct (load_launch_templates _ _ _ _ _ _) as [[[]|e] w3]; [|done].
  rewrite run_bind. unfold lift at 1.
  by destruct (transform_launch_template_versions str_other versions).
Qed.

Lemma sync_regions_app regions_done regions_rest current_aws_account_id update_tag w0 w :
  sync_regions str_other paginate_launch_templates paginate_launch_template_versions
    load regions_done current_aws_account_id update_tag w0 = (Ok tt, w) →
  sync_regions str_other paginate_launch_templates paginate_launch_template_versions
    load (regions_done ++ regions_rest) current_aws_account_id update_tag w0 =
  sync_regions str_other paginate_launch_templates paginate_launch_template_versions
    load regions_rest current_aws_account_id update_tag w.
Proof.
  revert w0. induction regions_done as [|region regions_done IH]; intros w0.
  - by intros [= <-].
  - cbn [sync_regions app]. rewrite !run_bind.
    destruct (sync_region _ _ _ _ _ _ _ w0) as [[[]|e] w1]; [|done]. apply IH.
Qed.

(** An error in the pass over a region, after the passes before it went
    through, is the outcome of the whole sync. *)
Lemma sync_aborts_in_region regions_done region regions_rest current_aws_account_id
    update_tag common_job_parameters w0 w e w' :
  sync_regions str_other paginate_launch_templates paginate_launch_template_versions
    load regions_done current_aws_account_id update_tag w0 = (Ok tt, w) →
  sync_region str_other paginate_launch_templates paginate_launch_template_versions
    load region current_aws_account_id update_tag w = (Raise e, w') →
  sync_ec2_launch_templates str_other paginate_launch_templates
    paginate_launch_template_versions load graph_job_run
    (regions_done ++ region :: regions_rest) current_aws_account_id update_tag
    common_job_parameters w0 = (Raise e, w').
Proof.
  intros Hdone Hregion. unfold sync_ec2_launch_templates, timeit.
  rewrite run_bind, (sync_regions_app _ _ _ _ _ _ Hdone).
  cbn [sync_regions]. by rewrite run_bind, Hregion.
Qed.

Lemma sync_aborts_in_region_trace regions_done region current_aws_account_id
    update_tag w0 w e w' :
  sync_regions str_other paginate_launch_templates paginate_launch_template_versions
    load regions_done current_aws_account_id update_tag w0 = (Ok tt, w) →
  sync_region str_other paginate_launch_templates paginate_launch_template_versions
    load region current_aws_account_id update_tag w = (Raise e, w') →
  ∃ t, trace w' = trace w0 ++ t ∧ Forall (λ ev, ¬ is_job_run ev) t.
Proof.
  intros Hdone Hregion.
  destruct (appends_sync_regions regions_done current_aws_account_id update_tag w0)
    as (t1 & Ht1 & H1).
  rewrite Hdone in Ht1, H1. cbn [fst snd] in Ht1, H1. destruct H1 as (segs & Hsegs & ->).
  destruct (appends_sync_region region current_aws_account_id update_tag w)
    as (t2 & Ht2 & H2).
  rewrite Hregion in Ht2, H2. cbn [fst snd] in Ht2, H2.
  exists (concat segs ++ t2). split; [by rewrite Ht2, Ht1, app_assoc |].
  apply Forall_app. split; [| done]. by eapply segments_no_job_run.
Qed.

Lemma get_launch_template_versions_raises region templates_done template templates_rest
    launch_template_id w1 rs w e w' :
  fetch_chain paginate_launch_template_versions region templates_done w1 rs w →
  template !! "LaunchTemplateId" = Some launch_template_id →
  get_launch_template_versions_by_template paginate_launch_template_versions
    launch_template_id region w = (Raise e, w') →
  get_launch_template_versions paginate_launch_template_versions region
    (templates_done ++ template :: templates_rest) w1 = (Raise e, w').
Proof.
  intros Hchain Hid Hrun.
  unfold get_launch_template_versions, timeit, aws_handle_regions.
  rewrite (get_launch_template_versions_loop_chain _ _ _ _ _ _ _ Hchain).
  by rewrite get_launch_template_versions_loop_cons, Hid, Hrun.
Qed.

Lemma transform_launch_template_versions_lacking versions :
  Exists lacks_launch_template_data versions →
  ∃ e, transform_launch_template_versions str_other versions = Raise e.
Proof.
  intros (bad & Hin & Hbad)%Exists_exists.
  destruct (transform_launch_template_versions str_other versions) as [out|e] eqn:Hrun;
    [| by exists e].
  apply transform_launch_template_versions_Ok in Hrun.
  destruct (Forall2_elem_of_l _ _ _ _ Hrun Hin) as (o & _ & Ho).
  apply transform_launch_template_version_Ok in Ho
    as (tid & num & us & d & _ & _ & _ & Hltd & _).
  destruct Hbad; congruence.
Qed.

Lemma transform_launch_template_version_no_data bad :
  is_Some (bad !! "LaunchTemplateId") →
  is_Some (bad !! "VersionNumber") →
  (∃ us, bad !! "CreateTime" = Some (VDatetime us)) →
  bad !! "LaunchTemplateData" = None →
  transform_launch_template_version str_other bad = Raise (KeyError "LaunchTemplateData").
Proof.
  intros [tid Htid] [num Hnum] [us Hus] Hltd.
  unfold transform_launch_template_version, getitem.
  by rewrite Htid, Hnum, Hus, Hltd.
Qed.

Lemma transform_launch_template_versions_first_error good bad rest e :
  Forall well_formed_version good →
  transform_launch_template_version str_other bad = Raise e →
  transform_launch_template_versions str_other (good ++ bad :: rest) = Raise e.
Proof.
  intros Hgood Hbad. unfold transform_launch_template_versions.
  generalize (@nil dict) as acc.
  induction Hgood as [|v good Hv _ IH]; intros acc; simpl.
  - by rewrite Hbad.
  - apply (well_formed_version_Ok str_other) in Hv as [current ->]. simpl. apply IH.
Qed.

(** C7: a version without its nested [LaunchTemplateData] makes the version
    transform raise instead of returning records; when it is the first
    malformed version the error is the [KeyError] of that key; and a sync
    that fetched such a version in some region ends in an error, with no
    cleanup job run, the transform's own error when the steps before it went
    through. *)
Theorem missing_launch_template_data_fatal :
  (∀ versions,
     Exists lacks_launch_template_data versions →
     ∃ e, transform_launch_template_versions str_other versions = Raise e) ∧
  (∀ good bad rest,
     Forall well_formed_version good →
     is_Some (bad !! "LaunchTemplateId") →
     is_Some (bad !! "VersionNumber") →
     (∃ us, bad !! "CreateTime" = Some (VDatetime us)) →
     bad !! "LaunchTemplateData" = None →
     transform_launch_template_versions str_other (good ++ bad :: rest) =
       Raise (KeyError "LaunchTemplateData")) ∧
  (∀ regions_done region regions_rest current_aws_account_id update_tag
     common_job_parameters w0 w templates w1 versions w2,
     sync_regions str_other paginate_launch_templates paginate_launch_template_versions
       load regions_done current_aws_account_id update_tag w0 = (Ok tt, w) →
     get_launch_templates paginate_launch_templates region
       (emit (sync_start region current_aws_account_id) w).2 = (Ok templates, w1) →
     get_launch_template_versions paginate_launch_template_versions region templates w1
       = (Ok versions, w2) →
     Exists lacks_launch_template_data versions →
     let run := sync_ec2_launch_templates str_other paginate_launch_templates
                  paginate_launch_template_versions load graph_job_run
                  (regions_done ++ region :: regions_rest) current_aws_account_id
                  update_tag common_job_parameters w0 in
     (∃ e, run.1 = Raise e) ∧
     (∃ t, trace run.2 = trace w0 ++ t ∧ Forall (λ ev, ¬ is_job_run ev) t) ∧
     (∀ transformed_templates w3 e,
        transform_launch_templates templates versions = Ok transformed_templates →
        load_launch_templates load transformed_templates region current_aws_account_id
          update_tag w2 = (Ok tt, w3) →
        transform_launch_template_versions str_other versions = Raise e →
        run = (Raise e, w3))).
Proof.
  split_and!.
  - apply transform_launch_template_versions_lacking.
  - intros good bad rest Hgood ? ? ? ?.
    apply transform_launch_template_versions_first_error; [done |].
    by apply transform_launch_template_version_no_data.
  - intros regions_done region regions_rest acct tag params w0 w templates w1 versions w2
      Hdone Htemplates Hversions Hbad run.
    destruct (transform_launch_template_versions_lacking versions Hbad) as [e He].
    assert (Hregion : ∃ e' w',
      sync_region str_other paginate_launch_templates paginate_launch_template_versions
        load region acct tag w = (Raise e', w') ∧
      ∀ transformed_templates w3,
        transform_launch_templates templates versions = Ok transformed_templates →
        load_launch_templates load transformed_templates region acct tag w2 = (Ok tt, w3) →
        e' = e ∧ w' = w3).
    { rewrite sync_region_run, Htemplates, Hversions, He.
      destruct (transform_launch_templates templates versions) as [tts|e1] eqn:Htts.
      - destruct (load_launch_templates load tts region acct tag w2)
          as [[[]|e2] w3] eqn:Hload; eexists _, _; (split; [done |]).
        + intros tts' w3' [= <-]. rewrite Hload. by intros [= <-].
        + intros tts' w3' [= <-]. by rewrite Hload.
      - eexists _, _. split; [done |]. by intros tts' w3' [=]. }
    destruct Hregion as (e' & w' & Hregion & Hsame).
    pose proof (sync_aborts_in_region _ _ regions_rest _ _ params _ _ _ _ Hdone Hregion)
      as Hrun.
    fold run in Hrun. split_and!.
    + exists e'. by rewrite Hrun.
    + rewrite Hrun. by eapply sync_aborts_in_region_trace.
    + intros tts w3 e3 Htts Hload He3. rewrite Hrun.
      destruct (Hsame _ _ Htts Hload) as [-> ->]. congruence.
Qed.

(** C2, as amended: when the pagination fails with the not-found code, the
    fetch returns the versions of the pages received before the failure (the
    empty list when no page was received), logs one warning and does not
    raise; when it fails with anything else the fetch raises that same error,
    logs nothing, and the sync it runs in ends with that error. *)
Theorem not_found_tolerance launch_template_id region w :
  let ps := (paginate_launch_template_versions launch_template_id region (ec2_state w)).1 in
  let s := (paginate_launch_template_versions launch_template_id region (ec2_state w)).2 in
  let received := concat (map LaunchTemplateVersions (pages_received ps)) in
  let called := trace w ++ [DescribeLaunchTemplateVersions launch_template_id region] in
  (pages_error ps = Some (ClientError "InvalidLaunchTemplateId.NotFound") →
     get_launch_template_versions_by_template paginate_launch_template_versions
       launch_template_id region w =
       (Ok received,
        World s (graph_state w)
          (called ++ [LogWarning "Launch template %s no longer exists in region %s"
                                 [launch_template_id; VStr region]])) ∧
     (pages_received ps = [] → received = [])) ∧
  (∀ e,
     pages_error ps = Some e →
     e ≠ ClientError "InvalidLaunchTemplateId.NotFound" →
     get_launch_template_versions_by_template paginate_launch_template_versions
       launch_template_id region w = (Raise e, World s (graph_state w) called) ∧
     ∀ regions_done regions_rest current_aws_account_id update_tag common_job_parameters
       w0 wr templates_done template templates_rest wt rs,
       sync_regions str_other paginate_launch_templates paginate_launch_template_versions
         load regions_done current_aws_account_id update_tag w0 = (Ok tt, wr) →
       get_launch_templates paginate_launch_templates region
         (emit (sync_start region current_aws_account_id) wr).2 =
         (Ok (templates_done ++ template :: templates_rest), wt) →
       fetch_chain paginate_launch_template_versions region templates_done wt rs w →
       template !! "LaunchTemplateId" = Some launch_template_id →
       sync_ec2_launch_templates str_other paginate_launch_templates
         paginate_launch_template_versions load graph_job_run
         (regions_done ++ region :: regions_rest) current_aws_account_id update_tag
         common_job_parameters w0 = (Raise e, World s (graph_state w) called)).
Proof.
  cbn zeta.
  pose proof (get_launch_template_versions_by_template_run launch_template_id region w)
    as Hrun. cbn zeta in Hrun.
  split.
  - intros Herr. rewrite Herr in Hrun. rewrite decide_True in Hrun by done.
    split; [done |]. by intros ->.
  - intros e Herr Hne.
    assert (Hraise :
      get_launch_template_versions_by_template paginate_launch_template_versions
        launch_template_id region w =
      (Raise e, World (paginate_launch_template_versions launch_template_id region
                         (ec2_state w)).2 (graph_state w)
                  (trace w ++ [DescribeLaunchTemplateVersions launch_template_id region]))).
    { rewrite Herr in Hrun. destruct e as [| | |error_code|]; try done.
      rewrite decide_False in Hrun; [done | congruence]. }
    split; [done |].
    intros regions_done regions_rest acct tag params w0 wr templates_done template
      templates_rest wt rs Hdone Htemplates Hchain Hid.
    eapply sync_aborts_in_region; [done |].
    rewrite sync_region_run, Htemplates.
    by rewrite (get_launch_template_versions_raises _ _ _ _ _ _ _ _ _ _ Hchain Hid Hraise).
Qed.

End SyncFacts.

(** C5, as amended: both transforms store, for the creation time [dt] of a
    record, [str(int(dt.timestamp()))] in the record made from it: the string
    of the integer part of the float, cut towards zero and not rounded.  For
    every creation time less than [2 ^ 34] seconds from the epoch that is the
    whole number of epoch seconds, cut towards zero; a creation time at
    1700000000.5 seconds becomes ["1700000000"]. *)
Theorem creation_time_truncated :
  (∀ templates versions out,
     transform_launch_templates templates versions = Ok out →
     Forall2 creation_time_stored (filter (has_version versions) templates) out) ∧
  (∀ str_other versions out,
     transform_launch_template_versions str_other versions = Ok out →
     Forall2 creation_time_stored versions out) ∧
  (∀ us, Z.abs us < 2 ^ 34 * 10 ^ 6 →
         int_of_float (datetime_timestamp us) = Z.quot us (10 ^ 6)) ∧
  pretty (int_of_float (datetime_timestamp 1700000000500000)) = "1700000000".
Proof.
  split_and!.
  - intros templates versions out (_ & _ & Hall)%transform_launch_templates_Ok.
    eapply Forall2_impl; [exact Hall |].
    intros t o (us & Hus & ->). exists us.
    rewrite lookup_insert_eq. split_and!; [done | done |].
    intros Hnear. unfold epoch_seconds_string. by rewrite int_of_timestamp.
  - intros str_other versions out Hall%transform_launch_template_versions_Ok.
    eapply Forall2_impl; [exact Hall |].
    intros version current
      (tid & num & us & d & _ & _ & Hus & _ & ->)%transform_launch_template_version_Ok.
    exists us.
    rewrite flatten_lookup, decide_False by apply CreateTime_not_tracked.
    rewrite lookup_insert_eq. split_and!; [done | done |].
    intros Hnear. unfold epoch_seconds_string. by rewrite int_of_timestamp.
  - apply int_of_timestamp.
  - by vm_compute.
Qed.

(** ** The claims on the sample data *)

Lemma transform_launch_templates_orphan_filter_witness :
  Forall2 emitted_from
    (filter (has_version [sample_version_1]) [sample_template_1; sample_template_2])
    (records (transform_launch_templates [sample_template_1; sample_template_2]
                [sample_version_1])) ∧
  ∃ out, transform_launch_templates [sample_template_1; sample_template_2]
           [sample_version_1] = Ok out.
Proof.
  destruct (transform_launch_templates_orphan_filter
              [sample_template_1; sample_template_2] [sample_version_1])
    as [Hok Htotal].
  split.
  - apply Hok. apply succeeds_records. vm_compute. reflexivity.
  - apply Htotal.
    + repeat constructor. eexists. vm_compute. reflexivity.
    + repeat constructor; eexists; vm_compute; reflexivity.
    + repeat constructor; intros _; eexists; vm_compute; reflexivity.
Defined.

Lemma transform_launch_template_versions_one_per_input_witness :
  length (records (transform_launch_template_versions sample_str_other
                     [sample_version_1; sample_version_2])) = 2%nat ∧
  ∃ out, transform_launch_template_versions sample_str_other
           [sample_version_1; sample_version_2] = Ok out.
Proof.
  destruct (transform_launch_template_versions_one_per_input sample_str_other
              [sample_version_1; sample_version_2]) as [Hok Htotal].
  split.
  - apply Hok. apply succeeds_records. vm_compute. reflexivity.
  - apply Htotal. repeat constructor; eexists; vm_compute; reflexivity.
Defined.

Lemma flattening_complete_witness :
  ∃ current d,
    records (transform_launch_template_versions sample_str_other [sample_version_1])
      !! 0%nat = Some current ∧
    sample_version_1 !! "LaunchTemplateData" = Some (VDict d) ∧
    ∀ f, f ∈ tracked_fields →
      (∀ x, d !! f = Some x → current !! f = Some x) ∧
      (d !! f = None → current !! f = Some VNone).
Proof.
  apply (flattening_complete sample_str_other [sample_version_1]).
  - apply succeeds_records. vm_compute. reflexivity.
  - reflexivity.
Defined.

Lemma composite_id_derivation_witness :
  ∃ current tid num,
    records (transform_launch_template_versions sample_str_other [sample_version_9])
      !! 0%nat = Some current ∧
    sample_version_9 !! "LaunchTemplateId" = Some tid ∧
    sample_version_9 !! "VersionNumber" = Some num ∧
    current !! "Id" =
      Some (VStr (py_format sample_str_other tid +:+ "-" +:+ py_format sample_str_other num)) ∧
    (∀ s n, tid = VStr s → num = VInt n →
            current !! "Id" = Some (VStr (s +:+ "-" +:+ pretty n))) ∧
    (tid = VStr "lt-9" → num = VInt 3 → current !! "Id" = Some (VStr "lt-9-3")).
Proof.
  apply (composite_id_derivation sample_str_other [sample_version_9]).
  - apply succeeds_records. vm_compute. reflexivity.
  - reflexivity.
Defined.

Lemma version_frame_witness :
  ∃ current,
    records (transform_launch_template_versions sample_str_other [sample_version_9])
      !! 0%nat = Some current ∧
    dom sample_version_9 ⊆ dom current ∧
    (∀ k, k ≠ "Id" → k ≠ "CreateTime" → k ∉ tracked_fields →
          current !! k = sample_version_9 !! k) ∧
    is_Some (sample_version_9 !! "LaunchTemplateData") ∧
    current !! "LaunchTemplateData" = sample_version_9 !! "LaunchTemplateData".
Proof.
  apply (version_frame sample_str_other [sample_version_9]).
  - apply succeeds_records. vm_compute. reflexivity.
  - reflexivity.
Defined.

(** The claim C10 as stated fails on a version that carries a key [Id] of its
    own: the key is neither [CreateTime] nor a flattened field name, and the
    transform replaces its value by the composite id. *)
Lemma version_id_key_overwritten :
  ∃ current,
    transform_launch_template_versions sample_str_other [sample_version_9] = Ok [current] ∧
    sample_version_9 !! "Id" = Some (VStr "mine") ∧
    "Id" ≠ "CreateTime" ∧ ("Id" ∉ tracked_fields) ∧
    current !! "Id" = Some (VStr "lt-9-3") ∧
    current !! "Id" ≠ sample_version_9 !! "Id".
Proof.
  eexists. split.
  { apply transform_launch_template_versions_Ok. constructor; [| constructor].
    apply transform_launch_template_version_Ok.
    eexists _, _, _, _. split_and!; reflexivity. }
  split_and!; [done | done | apply Id_not_tracked | by vm_compute | by vm_compute].
Qed.

Lemma creation_time_truncated_witness :
  (∃ o, records (transform_launch_templates [sample_template_1; sample_template_2]
                   [sample_version_1]) = [o] ∧
        creation_time_stored sample_template_1 o ∧
        o !! "CreateTime" = Some (VStr "1700000000")) ∧
  (∃ current,
     records (transform_launch_template_versions sample_str_other [sample_version_1])
       = [current] ∧
     creation_time_stored sample_version_1 current ∧
     current !! "CreateTime" = Some (VStr "1700000000")) ∧
  int_of_float (datetime_timestamp sample_time) = Z.quot sample_time (10 ^ 6).
Proof.
  destruct creation_time_truncated as (Htemplates & Hversions & Htrunc & _).
  assert (Hstored : ∀ record out,
            record !! "CreateTime" = Some (VDatetime sample_time) →
            creation_time_stored record out →
            out !! "CreateTime" = Some (VStr "1700000000")).
  { intros record out Hrecord (us & Hus & Hout & _).
    rewrite Hrecord in Hus. injection Hus as <-. exact Hout. }
  split_and!.
  - assert (Hrun : transform_launch_templates [sample_template_1; sample_template_2]
                     [sample_version_1] =
                   Ok (records (transform_launch_templates
                                  [sample_template_1; sample_template_2]
                                  [sample_version_1])))
      by (apply succeeds_records; vm_compute; reflexivity).
    pose proof (Htemplates _ _ _ Hrun) as Hall.
    rewrite filter_cons_True, filter_cons_False, filter_nil in Hall.
    + apply Forall2_cons_inv_l in Hall as (o & rest & Ho & ->%Forall2_nil_inv_l & Hout).
      exists o. split_and!; [exact Hout | exact Ho |].
      exact (Hstored sample_template_1 o eq_refl Ho).
    + intros [_ H]. apply Exists_cons in H as [H|H]; [| by apply Exists_nil in H].
      vm_compute in H. discriminate H.
    + split; [eexists; vm_compute; reflexivity |].
      apply Exists_cons. left. vm_compute. reflexivity.
  - assert (Hrun : transform_launch_template_versions sample_str_other
                     [sample_version_1] =
                   Ok (records (transform_launch_template_versions sample_str_other
                                  [sample_version_1])))
      by (apply succeeds_records; vm_compute; reflexivity).
    pose proof (Hversions _ _ _ Hrun) as Hall.
    apply Forall2_cons_inv_l in Hall as (o & rest & Ho & ->%Forall2_nil_inv_l & Hout).
    exists o. split_and!; [exact Hout | exact Ho |].
    exact (Hstored sample_version_1 o eq_refl Ho).
  - apply Htrunc. vm_compute. reflexivity.
Defined.

(** The claim C5 as stated fails at the last microsecond a datetime can hold:
    [timestamp()] is a float, already rounded to the next whole second, so
    both transforms store ["253402300800"] where the epoch seconds cut to an
    integer are 253402300799. *)
Lemma creation_time_rounded_up :
  ∃ o current,
    transform_launch_templates [sample_late_template] [sample_late_version] = Ok [o] ∧
    transform_launch_template_versions sample_str_other [sample_late_version] =
      Ok [current] ∧
    sample_late_template !! "CreateTime" = Some (VDatetime 253402300799999999) ∧
    sample_late_version !! "CreateTime" = Some (VDatetime 253402300799999999) ∧
    o !! "CreateTime" = Some (VStr "253402300800") ∧
    current !! "CreateTime" = Some (VStr "253402300800") ∧
    pretty (Z.quot 253402300799999999 (10 ^ 6)) = "253402300799".
Proof.
  eexists _, _. split_and!.
  - apply transform_launch_templates_Ok. split_and!.
    + repeat constructor. eexists. vm_compute. reflexivity.
    + repeat constructor. eexists. vm_compute. reflexivity.
    + rewrite filter_cons_True, filter_nil.
      * constructor; [| constructor]. exists sample_late_time. split; reflexivity.
      * split; [eexists; vm_compute; reflexivity |].
        apply Exists_cons. left. vm_compute. reflexivity.
  - apply transform_launch_template_versions_Ok. constructor; [| constructor].
    apply transform_launch_template_version_Ok.
    eexists _, _, _, _. split_and!; reflexivity.
  - reflexivity.
  - reflexivity.
  - by vm_compute.
  - by vm_compute.
  - by vm_compute.
Qed.

Lemma not_found_tolerance_witness :
  get_launch_template_versions_by_template sample_paginate_versions
    (VStr "lt-1") "us-east-1" sample_world =
    (Ok [sample_version_1],
     World tt tt [ DescribeLaunchTemplateVersions (VStr "lt-1") "us-east-1";
                   LogWarning "Launch template %s no longer exists in region %s"
                              [VStr "lt-1"; VStr "us-east-1"] ]) ∧
  sync_ec2_launch_templates sample_str_other sample_paginate_templates
    sample_paginate_versions sample_load sample_graph_job_run
    ["eu-west-1"; "us-east-1"] sample_account 1 ∅ sample_world =
    (Raise (ClientError "RequestLimitExceeded"),
     World tt tt [ sync_start "eu-west-1" sample_account;
                   DescribeLaunchTemplates "eu-west-1";
                   DescribeLaunchTemplateVersions (VStr "lt-2") "eu-west-1" ]).
Proof.
  split.
  - apply (not_found_tolerance sample_str_other sample_paginate_templates
             sample_paginate_versions sample_load sample_graph_job_run
             (VStr "lt-1") "us-east-1" sample_world).
    reflexivity.
  - pose proof (not_found_tolerance sample_str_other sample_paginate_templates
                  sample_paginate_versions sample_load sample_graph_job_run
                  (VStr "lt-2") "eu-west-1" sample_world_eu) as H.
    cbn zeta in H. destruct H as [_ H].
    destruct (H (ClientError "RequestLimitExceeded")) as [_ Hsync].
    + reflexivity.
    + discriminate.
    + apply (Hsync [] ["us-east-1"] sample_account 1 ∅ sample_world sample_world
               [] sample_template_2 [] sample_world_eu []).
      * reflexivity.
      * reflexivity.
      * constructor.
      * reflexivity.
Defined.

(** The claim C2 as stated fails when the pagination has yielded a page
    before the not-found error: the fetch returns that page's versions, not
    the empty list. *)
Lemma not_found_after_a_page :
  pages_error (sample_paginate_versions (VStr "lt-1") "us-east-1" tt).1 =
    Some (ClientError "InvalidLaunchTemplateId.NotFound") ∧
  (get_launch_template_versions_by_template sample_paginate_versions
     (VStr "lt-1") "us-east-1" sample_world).1 = Ok [sample_version_1] ∧
  (get_launch_template_versions_by_template sample_paginate_versions
     (VStr "lt-1") "us-east-1" sample_world).1 ≠ Ok [].
Proof. split_and!; [reflexivity | reflexivity | discriminate]. Qed.

Lemma get_launch_template_versions_concat_witness :
  ∃ rs ids t,
    fetch_chain sample_paginate_versions "us-east-1"
      [sample_template_1; sample_template_2] sample_world rs
      (World tt tt [ DescribeLaunchTemplateVersions (VStr "lt-1") "us-east-1";
                     LogWarning "Launch template %s no longer exists in region %s"
                                [VStr "lt-1"; VStr "us-east-1"];
                     DescribeLaunchTemplateVersions (VStr "lt-2") "us-east-1" ]) ∧
    [sample_version_1; sample_version_2] = concat rs ∧
    length rs = 2%nat ∧
    Forall2 (λ template i, template !! "LaunchTemplateId" = Some i)
            [sample_template_1; sample_template_2] ids ∧
    [ DescribeLaunchTemplateVersions (VStr "lt-1") "us-east-1";
      LogWarning "Launch template %s no longer exists in region %s"
                 [VStr "lt-1"; VStr "us-east-1"];
      DescribeLaunchTemplateVersions (VStr "lt-2") "us-east-1" ] = [] ++ t ∧
    version_fetches t = map (λ i, (i, "us-east-1")) ids.
Proof.
  apply (get_launch_template_versions_concat sample_paginate_versions "us-east-1"
           [sample_template_1; sample_template_2] sample_world).
  reflexivity.
Defined.

Lemma missing_launch_template_data_fatal_witness :
  (∃ e, transform_launch_template_versions sample_str_other
          [sample_version_1; sample_version_no_data] = Raise e) ∧
  transform_launch_template_versions sample_str_other
    ([sample_version_1] ++ sample_version_no_data :: [sample_version_2]) =
    Raise (KeyError "LaunchTemplateData") ∧
  sync_ec2_launch_templates sample_str_other sample_paginate_templates
    sample_paginate_versions sample_load sample_graph_job_run
    ([] ++ "ap-south-1" :: ["us-east-1"]) sample_account 1 ∅ sample_world =
    (Raise (KeyError "LaunchTemplateData"),
     World tt tt
       (trace sample_world_ap_2 ++
        [ Load LaunchTemplateSchema
            (records (transform_launch_templates [sample_template_1]
                        [sample_version_no_data]))
            "ap-south-1" sample_account 1 ])).
Proof.
  destruct (missing_launch_template_data_fatal sample_str_other sample_paginate_templates
              sample_paginate_versions sample_load sample_graph_job_run)
    as (Hraise & Hfirst & Hsync).
  split_and!.
  - apply Hraise. apply Exists_cons. right. apply Exists_cons. left. left. reflexivity.
  - apply Hfirst.
    + repeat constructor; eexists; vm_compute; reflexivity.
    + eexists. vm_compute. reflexivity.
    + eexists. vm_compute. reflexivity.
    + eexists. vm_compute. reflexivity.
    + reflexivity.
  - refine (proj2 (proj2 (Hsync [] "ap-south-1" ["us-east-1"] sample_account 1 ∅
               sample_world sample_world [sample_template_1] sample_world_ap_1
               [sample_version_no_data] sample_world_ap_2 _ _ _ _)) _ _ _ _ _ _).
    + reflexivity.
    + reflexivity.
    + reflexivity.
    + apply Exists_cons. left. left. reflexivity.
    + apply succeeds_records. vm_compute. reflexivity.
    + reflexivity.
    + vm_compute. reflexivity.
Defined.

(** ** Further properties of the template transform *)

Lemma transform_launch_templates_loop_acc valid templates result :
  transform_launch_templates_loop valid templates result =
  (emitted ← transform_launch_templates_loop valid templates []; Ok (result ++ emitted)).
Proof.
  revert result. induction templates as [|template templates IH]; intros result.
  - simpl. by rewrite app_nil_r.
  - cbn [transform_launch_templates_loop]. rewrite !template_key_step.
    destruct (template_key template) as [k|]; [| done].
    destruct (decide (k ∉ valid)); [apply IH |].
    destruct (getitem template "CreateTime") as [c|e]; [| done]. cbn [mbind pyresult_bind].
    destruct (timestamp_string c) as [s|e]; [| done]. cbn [mbind pyresult_bind].
    rewrite IH, (IH ([] ++ _)).
    destruct (transform_launch_templates_loop valid templates []) as [emitted|e]; [| done].
    simpl. by rewrite <- app_assoc.
Qed.

Lemma transform_launch_templates_loop_app valid templates1 templates2 result :
  transform_launch_templates_loop valid (templates1 ++ templates2) result =
  (result1 ← transform_launch_templates_loop valid templates1 result;
   transform_launch_templates_loop valid templates2 result1).
Proof.
  revert result. induction templates1 as [|template templates1 IH]; intros result; [done |].
  cbn [app transform_launch_templates_loop]. rewrite !template_key_step.
  destruct (template_key template) as [k|]; [| done].
  destruct (decide (k ∉ valid)); [apply IH |].
  destruct (getitem template "CreateTime") as [c|e]; [| done]. cbn [mbind pyresult_bind].
  destruct (timestamp_string c) as [s|e]; [| done]. cbn [mbind pyresult_bind].
  apply IH.
Qed.

(** X1: the template transform touches nothing but [CreateTime]: every
    emitted record comes from a template with the same keys and the same
    value at every key other than [CreateTime], which holds a string; and no
    more records are emitted than templates were given. *)
Theorem transform_launch_templates_frame templates versions out :
  transform_launch_templates templates versions = Ok out →
  (length out ≤ length templates)%nat ∧
  ∀ o, o ∈ out →
    ∃ t, t ∈ templates ∧ dom o = dom t ∧
         (∀ k, k ≠ "CreateTime" → o !! k = t !! k) ∧
         ∃ s, o !! "CreateTime" = Some (VStr s).
Proof.
  intros (_ & _ & Hall)%transform_launch_templates_Ok. split.
  - rewrite <- (Forall2_length _ _ _ Hall). apply length_filter.
  - intros o Ho.
    destruct (Forall2_elem_of_r _ _ _ _ Hall Ho)
      as (t & [_ Ht]%list_elem_of_filter & us & Hus & ->).
    exists t. split_and!; [done | | |].
    + rewrite dom_insert_L. apply elem_of_dom_2 in Hus. set_solver.
    + intros k Hk. by rewrite lookup_insert_ne.
    + eexists. by rewrite lookup_insert_eq.
Qed.

(** X2: with no version records every template is an orphan: the transform
    returns the empty list whatever the templates hold besides a hashable
    id, and it never returns anything else. *)
Theorem transform_launch_templates_no_versions templates :
  (Forall (λ t, is_Some (template_key t)) templates →
   transform_launch_templates templates [] = Ok []) ∧
  (∀ out, transform_launch_templates templates [] = Ok out → out = []).
Proof.
  assert (Hnone : filter (has_version []) templates = []).
  { apply filter_none. apply Forall_forall. intros t _ [_ H]. by apply Exists_nil in H. }
  split.
  - intros Hts. apply transform_launch_templates_Ok. rewrite Hnone.
    split_and!; [constructor | done | constructor].
  - intros out (_ & _ & Hall)%transform_launch_templates_Ok.
    rewrite Hnone in Hall. by apply Forall2_nil_inv_l in Hall.
Qed.

(** X3: the template transform sees the versions only through the set of
    their ids: two version lists with the same ids, in any order and with
    any repetition, give the same outcome. *)
Theorem transform_launch_templates_version_ids templates versions versions' :
  Forall (λ v, is_Some (template_key v)) versions →
  Forall (λ v, is_Some (template_key v)) versions' →
  (∀ k, Exists (λ v, template_key v = Some k) versions ↔
        Exists (λ v, template_key v = Some k) versions') →
  transform_launch_templates templates versions =
  transform_launch_templates templates versions'.
Proof.
  intros Hvs Hvs' Hsame. unfold transform_launch_templates.
  rewrite (proj2 (template_id_set_Ok versions ∅ _) (conj Hvs eq_refl)).
  rewrite (proj2 (template_id_set_Ok versions' ∅ _) (conj Hvs' eq_refl)).
  cbn [mbind pyresult_bind]. f_equal. f_equal. apply set_eq. intros k.
  rewrite !elem_of_list_to_set, !list_elem_of_omap.
  specialize (Hsame k). rewrite !Exists_exists in Hsame. done.
Qed.

(** X4: the template transform works template by template: on a
    concatenation it gives the concatenation of the two outcomes, and the
    error of the first part when that part fails. *)
Theorem transform_launch_templates_app templates1 templates2 versions :
  transform_launch_templates (templates1 ++ templates2) versions =
  (out1 ← transform_launch_templates templates1 versions;
   out2 ← transform_launch_templates templates2 versions;
   Ok (out1 ++ out2)).
Proof.
  unfold transform_launch_templates.
  destruct (template_id_set versions ∅) as [valid|e]; [| done]. cbn [mbind pyresult_bind].
  rewrite transform_launch_templates_loop_app.
  destruct (transform_launch_templates_loop valid templates1 []) as [out1|e]; [| done].
  cbn [mbind pyresult_bind]. apply transform_launch_templates_loop_acc.
Qed.

(** X5: the versions are scanned before any template is looked at: a version
    without [LaunchTemplateId], after versions with hashable ids, makes the
    transform raise the [KeyError] of that key for every list of templates,
    the empty one included; an id that is a list raises [TypeError]. *)
Theorem transform_launch_templates_bad_version templates good bad rest :
  Forall (λ v, is_Some (template_key v)) good →
  (bad !! "LaunchTemplateId" = None →
   transform_launch_templates templates (good ++ bad :: rest) =
     Raise (KeyError "LaunchTemplateId")) ∧
  (∀ l, bad !! "LaunchTemplateId" = Some (VList l) →
   transform_launch_templates templates (good ++ bad :: rest) =
     Raise (TypeError "unhashable type: 'list'")).
Proof.
  intros Hgood. unfold transform_launch_templates.
  assert (Hset : ∀ tail acc, template_id_set (good ++ tail) acc =
            template_id_set tail (list_to_set (omap template_key good) ∪ acc)).
  { intros tail. induction Hgood as [|v good [k Hk] _ IH]; intros acc.
    - change (omap template_key (@nil dict)) with (@nil hkey).
      by rewrite list_to_set_nil, (left_id_L ∅ (∪)).
    - cbn [app template_id_set]. rewrite template_key_step, Hk, IH.
      f_equal. change (omap template_key (v :: good))
        with (match template_key v with
              | Some y => y :: omap template_key good
              | None => omap template_key good
              end).
      rewrite Hk, list_to_set_cons.
      generalize (list_to_set (C := gset hkey) (omap template_key good)).
      intros X. clear. set_solver. }
  rewrite Hset. cbn [template_id_set]. unfold getitem. split.
  - by intros ->.
  - by intros l ->.
Qed.

(** X6: an orphan is dropped on its id alone, its [CreateTime] is never read;
    a kept template without [CreateTime] raises the [KeyError] of that key,
    and one whose [CreateTime] is not a datetime an [AttributeError]. *)
Theorem transform_launch_templates_head template templates versions :
  Forall (λ v, is_Some (template_key v)) versions →
  is_Some (template_key template) →
  (¬ has_version versions template →
   transform_launch_templates (template :: templates) versions =
   transform_launch_templates templates versions) ∧
  (has_version versions template → template !! "CreateTime" = None →
   transform_launch_templates (template :: templates) versions =
     Raise (KeyError "CreateTime")) ∧
  (has_version versions template →
   ∀ c, template !! "CreateTime" = Some c → (∀ us, c ≠ VDatetime us) →
   transform_launch_templates (template :: templates) versions =
     Raise (AttributeError "timestamp")).
Proof.
  intros Hvs [k Hk]. unfold transform_launch_templates.
  rewrite (proj2 (template_id_set_Ok versions ∅ _) (conj Hvs eq_refl)).
  cbn [mbind pyresult_bind transform_launch_templates_loop].
  rewrite template_key_step, Hk.
  pose proof (key_in_has_version versions template) as Hin.
  unfold key_in in Hin. rewrite Hk in Hin.
  split_and!.
  - intros Hno. rewrite decide_True; [done |]. by rewrite Hin.
  - intros Hyes Hc. rewrite decide_False by (rewrite Hin; tauto).
    unfold getitem. by rewrite Hc.
  - intros Hyes c Hc Hnot. rewrite decide_False by (rewrite Hin; tauto).
    unfold getitem. rewrite Hc. cbn [mbind pyresult_bind].
    destruct c; try done. by destruct (Hnot us).
Qed.

(** ** Further properties of the version transform *)

Section MoreVersionFacts.

Variable str_other : value → string.

Lemma transform_launch_template_versions_loop_acc versions result :
  transform_launch_template_versions_loop str_other versions result =
  (currents ← transform_launch_template_versions_loop str_other versions [];
   Ok (result ++ currents)).
Proof.
  revert result. induction versions as [|version versions IH]; intros result.
  - simpl. by rewrite app_nil_r.
  - cbn [transform_launch_template_versions_loop].
    destruct (transform_launch_template_version str_other version) as [current|e]; [| done].
    cbn [mbind pyresult_bind]. rewrite IH, (IH ([] ++ _)).
    destruct (transform_launch_template_versions_loop str_other versions [])
      as [currents|e]; [| done].
    simpl. by rewrite <- app_assoc.
Qed.

(** X7: the version transform reads a record in a fixed order and raises at
    the first read that fails: [LaunchTemplateId], [VersionNumber],
    [CreateTime] (a [KeyError] when the key is absent, an [AttributeError]
    when the value is no datetime), then [LaunchTemplateData] (a [KeyError]
    when absent, an [AttributeError] when it is no dict); it raises in no
    other case. *)
Theorem transform_launch_template_version_error version e :
  transform_launch_template_version str_other version = Raise e ↔
  (version !! "LaunchTemplateId" = None ∧ e = KeyError "LaunchTemplateId") ∨
  (is_Some (version !! "LaunchTemplateId") ∧
   ((version !! "VersionNumber" = None ∧ e = KeyError "VersionNumber") ∨
    (is_Some (version !! "VersionNumber") ∧
     ((version !! "CreateTime" = None ∧ e = KeyError "CreateTime") ∨
      (∃ c, version !! "CreateTime" = Some c ∧ (∀ us, c ≠ VDatetime us) ∧
            e = AttributeError "timestamp") ∨
      ((∃ us, version !! "CreateTime" = Some (VDatetime us)) ∧
       ((version !! "LaunchTemplateData" = None ∧ e = KeyError "LaunchTemplateData") ∨
        (∃ ltd, version !! "LaunchTemplateData" = Some ltd ∧ (∀ d, ltd ≠ VDict d) ∧
                e = AttributeError "get"))))))).
Proof.
  unfold transform_launch_template_version, getitem, is_Some.
  destruct (version !! "LaunchTemplateId") as [tid|]; cbn [mbind pyresult_bind];
    [| naive_solver].
  destruct (version !! "VersionNumber") as [num|]; cbn [mbind pyresult_bind];
    [| naive_solver].
  destruct (version !! "CreateTime") as [c|]; cbn [mbind pyresult_bind];
    [| naive_solver].
  destruct c as [| | | |us| |]; cbn [timestamp_string mbind pyresult_bind];
    [naive_solver | naive_solver | naive_solver | naive_solver | |
     naive_solver | naive_solver].
  destruct (version !! "LaunchTemplateData") as [ltd|]; cbn [mbind pyresult_bind];
    [| naive_solver].
  destruct ltd as [| | | | | |d]; cbn [py_get mbind pyresult_bind]; naive_solver.
Qed.

(** X8: the version transform works version by version: on a concatenation it
    gives the concatenation of the two outcomes, and the error of the first
    part when that part fails, so the versions after a malformed one are never
    inspected. *)
Theorem transform_launch_template_versions_app versions1 versions2 :
  transform_launch_template_versions str_other (versions1 ++ versions2) =
  (out1 ← transform_launch_template_versions str_other versions1;
   out2 ← transform_launch_template_versions str_other versions2;
   Ok (out1 ++ out2)).
Proof.
  unfold transform_launch_template_versions. generalize (@nil dict) at 1 3 as result.
  induction versions1 as [|version versions1 IH]; intros result.
  - cbn [app transform_launch_template_versions_loop mbind pyresult_bind].
    apply transform_launch_template_versions_loop_acc.
  - cbn [app transform_launch_template_versions_loop].
    destruct (transform_launch_template_version str_other version) as [current|e]; [| done].
    cbn [mbind pyresult_bind]. apply IH.
Qed.

(** X9: every record the version transform returns has exactly the keys of
    its input together with [Id] and the thirteen flattened names, whatever
    the nested object held. *)
Theorem transform_launch_template_version_keys version current :
  transform_launch_template_version str_other version = Ok current →
  dom current = dom version ∪ {[ "Id" ]} ∪ list_to_set tracked_fields.
Proof.
  intros (tid & num & us & d & _ & _ & Hus & _ & ->)%transform_launch_template_version_Ok.
  apply set_eq. intros k.
  rewrite !elem_of_union, elem_of_singleton, elem_of_list_to_set, !elem_of_dom.
  rewrite flatten_lookup.
  destruct (decide (k ∈ tracked_fields)) as [Hin|Hnin]; [by split; eauto |].
  destruct (decide ("CreateTime" = k)) as [<-|]; [rewrite lookup_insert_eq, Hus; by split; eauto |].
  rewrite lookup_insert_ne by done.
  destruct (decide ("Id" = k)) as [<-|]; [rewrite lookup_insert_eq; by split; eauto |].
  rewrite lookup_insert_ne by done. naive_solver.
Qed.

(** X10: a transformed version cannot be transformed again: its [CreateTime]
    is by then a string, and the second pass raises the [AttributeError] of
    [timestamp]. *)
Theorem transform_launch_template_version_twice version current :
  transform_launch_template_version str_other version = Ok current →
  transform_launch_template_version str_other current = Raise (AttributeError "timestamp").
Proof.
  intros (tid & num & us & d & Htid & Hnum & Hus & _ & ->)%transform_launch_template_version_Ok.
  unfold transform_launch_template_version at 1, getitem.
  rewrite !flatten_lookup.
  assert (H1 : "LaunchTemplateId" ∉ tracked_fields) by compute_done.
  assert (H2 : "VersionNumber" ∉ tracked_fields) by compute_done.
  rewrite (decide_False (P := "LaunchTemplateId" ∈ tracked_fields)) by done.
  rewrite (decide_False (P := "VersionNumber" ∈ tracked_fields)) by done.
  rewrite (decide_False (P := "CreateTime" ∈ tracked_fields))
    by apply CreateTime_not_tracked.
  rewrite (lookup_insert_ne _ "CreateTime" "LaunchTemplateId") by done.
  rewrite (lookup_insert_ne _ "Id" "LaunchTemplateId") by done.
  rewrite (lookup_insert_ne _ "CreateTime" "VersionNumber") by done.
  rewrite (lookup_insert_ne _ "Id" "VersionNumber") by done.
  rewrite lookup_insert_eq, Htid, Hnum. done.
Qed.

End MoreVersionFacts.

(** ** Further properties of the fetchers *)

Section MoreSyncFacts.

Context {ec2 neo4j : Type}.

Variable str_other : value → string.
Variable paginate_launch_templates : string → ec2 → pages templates_page * ec2.
Variable paginate_launch_template_versions :
  value → string → ec2 → pages versions_page * ec2.
Variable load : schema → list dict → string → string → Z → neo4j → pyresult unit * neo4j.
Variable graph_job_run : schema → dict → neo4j → pyresult unit * neo4j.

Implicit Types w : @world ec2 neo4j.

(** What the template fetch does, by the way its pagination ends. *)
Lemma get_launch_templates_outcome region w :
  let ps := (paginate_launch_templates region (ec2_state w)).1 in
  let s := (paginate_launch_templates region (ec2_state w)).2 in
  get_launch_templates paginate_launch_templates region w =
    (match pages_error ps with
     | None => Ok (concat (map LaunchTemplates (pages_received ps)))
     | Some e => Raise e
     end,
     World s (graph_state w) (trace w ++ [DescribeLaunchTemplates region])).
Proof.
  cbn zeta. unfold get_launch_templates, timeit, aws_handle_regions, call_ec2.
  rewrite !run_bind. unfold emit at 1, step_ec2. cbn [ec2_state graph_state trace].
  destruct (paginate_launch_templates region (ec2_state w)) as [ps s].
  rewrite extend_pages_spec. cbn [fst snd app].
  by destruct (pages_error ps).
Qed.

(** X11: the template fetch returns the templates of all pages, in page
    order, when the pagination ends normally; it raises the error of a failed
    page request unchanged, the not-found error included, and then drops the
    pages already received.  Either way it issues the one pagination and
    leaves the graph alone. *)
Theorem get_launch_templates_run region w :
  let ps := (paginate_launch_templates region (ec2_state w)).1 in
  let s := (paginate_launch_templates region (ec2_state w)).2 in
  let w' := World s (graph_state w) (trace w ++ [DescribeLaunchTemplates region]) in
  (pages_error ps = None →
   get_launch_templates paginate_launch_templates region w =
     (Ok (concat (map LaunchTemplates (pages_received ps))), w')) ∧
  (∀ e, pages_error ps = Some e →
   get_launch_templates paginate_launch_templates region w = (Raise e, w')).
Proof.
  cbn zeta. rewrite get_launch_templates_outcome. cbn zeta. split.
  - by intros ->.
  - by intros e ->.
Qed.

(** What one per-template fetch leaves behind, whatever its outcome. *)
Lemma get_launch_template_versions_by_template_step launch_template_id region w :
  let run := get_launch_template_versions_by_template paginate_launch_template_versions
               launch_template_id region w in
  graph_state run.2 = graph_state w ∧
  ∃ t, trace run.2 = trace w ++ t ∧ version_fetches t = [(launch_template_id, region)].
Proof.
  cbn zeta. rewrite get_launch_template_versions_by_template_run. cbn zeta.
  destruct (pages_error _) as [[| | |error_code|]|];
    try (split; [done |]; by eexists [_]).
  case_decide; (split; [done |]).
  - eexists [_; _]. cbn [snd trace]. by rewrite <- app_assoc.
  - by eexists [_].
Qed.

(** X12: a per-template fetch whose pagination ends normally returns the
    versions of all its pages, in page order, and logs nothing; the warning
    is logged exactly when the pagination ends in the not-found error; and
    whatever the outcome the graph is left alone. *)
Theorem get_launch_template_versions_by_template_effects launch_template_id region w :
  let ps := (paginate_launch_template_versions launch_template_id region (ec2_state w)).1 in
  let run := get_launch_template_versions_by_template paginate_launch_template_versions
               launch_template_id region w in
  let warning := LogWarning "Launch template %s no longer exists in region %s"
                            [launch_template_id; VStr region] in
  graph_state run.2 = graph_state w ∧
  (pages_error ps = None →
   run.1 = Ok (concat (map LaunchTemplateVersions (pages_received ps))) ∧
   trace run.2 = trace w ++ [DescribeLaunchTemplateVersions launch_template_id region]) ∧
  (warning ∈ drop (length (trace w)) (trace run.2) ↔
   pages_error ps = Some (ClientError "InvalidLaunchTemplateId.NotFound")).
Proof.
  cbn zeta. rewrite get_launch_template_versions_by_template_run. cbn zeta.
  destruct (pages_error _) as [[| | |error_code|]|]; cbn [fst snd trace graph_state];
    try (split_and!; [done | done |]; rewrite drop_app_length;
         split; [intros ?%list_elem_of_singleton; done | done]).
  - case_decide as Hcode; cbn [fst snd trace graph_state].
    + subst error_code. split_and!; [done | done |].
      rewrite <- app_assoc, drop_app_length. split; [done |]. intros _.
      apply elem_of_cons. right. by apply list_elem_of_singleton.
    + split_and!; [done | done |]. rewrite drop_app_length.
      split; [intros ?%list_elem_of_singleton; done | congruence].
Qed.

Lemma get_launch_template_versions_loop_fetches region templates acc w :
  let run := get_launch_template_versions_loop paginate_launch_template_versions
               region templates acc w in
  graph_state run.2 = graph_state w ∧
  ∃ t, trace run.2 = trace w ++ t ∧
       version_fetches t `prefix_of`
         map (λ i, (i, region)) (launch_template_ids templates).
Proof.
  cbn zeta. revert acc w. induction templates as [|template templates IH]; intros acc w.
  - split; [done |]. exists []. by rewrite app_nil_r.
  - rewrite get_launch_template_versions_loop_cons. unfold launch_template_ids.
    cbn [omap list_omap].
    destruct (template !! "LaunchTemplateId") as [i|].
    + pose proof (get_launch_template_versions_by_template_step i region w)
        as (Hg & t1 & Ht1 & Hf1). cbn zeta in Hg, Ht1.
      destruct (get_launch_template_versions_by_template _ i region w) as [[versions|e] w1];
        cbn [fst snd] in *.
      * destruct (IH (acc ++ versions) w1) as (Hg2 & t2 & Ht2 & Hf2).
        split; [congruence |]. exists (t1 ++ t2).
        split; [by rewrite Ht2, Ht1, app_assoc |].
        unfold version_fetches in *. rewrite omap_app, Hf1. cbn [map app].
        by apply prefix_cons.
      * split; [done |]. exists t1. split; [done |].
        unfold version_fetches in *. rewrite Hf1. cbn [map].
        apply prefix_cons, prefix_nil.
    + split; [done |]. exists []. rewrite app_nil_r. split; [done | apply prefix_nil].
Qed.

(** X13: whatever its outcome, the version fetch leaves the graph alone and
    starts version paginations only for the ids of the given templates, in
    list order, at most one each: the paginations it starts are a prefix of
    the templates' ids. *)
Theorem get_launch_template_versions_fetches region launch_templates w :
  let run := get_launch_template_versions paginate_launch_template_versions
               region launch_templates w in
  graph_state run.2 = graph_state w ∧
  ∃ t, trace run.2 = trace w ++ t ∧
       version_fetches t `prefix_of`
         map (λ i, (i, region)) (launch_template_ids launch_templates).
Proof.
  unfold get_launch_template_versions, timeit, aws_handle_regions.
  apply get_launch_template_versions_loop_fetches.
Qed.

(** X14: a template without [LaunchTemplateId] stops the version fetch with
    the [KeyError] of that key: the versions fetched so far are dropped, and
    no pagination is started for it or for any template after it. *)
Theorem get_launch_template_versions_missing_id region templates_done template
    templates_rest w rs w1 :
  fetch_chain paginate_launch_template_versions region templates_done w rs w1 →
  template !! "LaunchTemplateId" = None →
  get_launch_template_versions paginate_launch_template_versions region
    (templates_done ++ template :: templates_rest) w =
    (Raise (KeyError "LaunchTemplateId"), w1).
Proof.
  intros Hchain Hid. unfold get_launch_template_versions, timeit, aws_handle_regions.
  rewrite (get_launch_template_versions_loop_chain _ _ _ _ _ _ _ _ Hchain).
  by rewrite get_launch_template_versions_loop_cons, Hid.
Qed.

(** X15: templates deleted during the scan do not stop it: when every version
    pagination of the region either ends normally or fails with the
    not-found code, the version fetch returns for every list of templates
    that carry an id. *)
Theorem get_launch_template_versions_tolerant region launch_templates w :
  (∀ i s, pages_error (paginate_launch_template_versions i region s).1 = None ∨
          pages_error (paginate_launch_template_versions i region s).1 =
            Some (ClientError "InvalidLaunchTemplateId.NotFound")) →
  Forall (λ template, is_Some (template !! "LaunchTemplateId")) launch_templates →
  ∃ template_versions w',
    get_launch_template_versions paginate_launch_template_versions region
      launch_templates w = (Ok template_versions, w').
Proof.
  intros Hpages Hids. unfold get_launch_template_versions, timeit, aws_handle_regions.
  generalize (@nil dict) as acc. revert w.
  induction Hids as [|template templates [i Hi] _ IH]; intros w acc.
  - by eexists _, _.
  - rewrite get_launch_template_versions_loop_cons, Hi.
    rewrite get_launch_template_versions_by_template_run. cbn zeta.
    destruct (Hpages i (ec2_state w)) as [-> | ->]; [apply IH |].
    rewrite decide_True by done. apply IH.
Qed.

(** ** Further properties of the loads, the cleanup and the orchestrator *)

Lemma call_graph_run ev (f : neo4j → pyresult unit * neo4j) w :
  call_graph ev f w =
    ((f (graph_state w)).1,
     World (ec2_state w) (f (graph_state w)).2 (trace w ++ [ev])).
Proof.
  unfold call_graph. rewrite run_bind. unfold emit, step_graph.
  cbn [graph_state ec2_state trace]. by destruct (f (graph_state w)).
Qed.

Lemma transform_launch_template_version_key version current :
  transform_launch_template_version str_other version = Ok current →
  template_key current = template_key version.
Proof.
  intros (tid & num & us & d & _ & _ & _ & _ & ->)%transform_launch_template_version_Ok.
  unfold template_key. rewrite flatten_lookup.
  assert ("LaunchTemplateId" ∉ tracked_fields) by compute_done.
  rewrite decide_False by done. by rewrite !lookup_insert_ne.
Qed.

(** X16: [cleanup] logs its message, runs the graph job of the template schema
    and then, on the graph that job left, the job of the version schema; when
    the first job fails the second is not run and the error is the outcome;
    the outcome of the second job is otherwise the outcome of [cleanup]. *)
Theorem cleanup_run common_job_parameters w :
  cleanup graph_job_run common_job_parameters w =
  match graph_job_run LaunchTemplateSchema common_job_parameters (graph_state w) with
  | (Raise e, g) =>
      (Raise e,
       World (ec2_state w) g
         (trace w ++ [ LogInfo "Running launch template cleanup job.";
                       GraphJobRun LaunchTemplateSchema common_job_parameters ]))
  | (Ok _, g) =>
      ((graph_job_run LaunchTemplateVersionSchema common_job_parameters g).1,
       World (ec2_state w)
         (graph_job_run LaunchTemplateVersionSchema common_job_parameters g).2
         (trace w ++ cleanup_events common_job_parameters))
  end.
Proof.
  unfold cleanup, timeit. rewrite run_bind. cbn [emit]. rewrite run_bind, call_graph_run.
  cbn [graph_state ec2_state trace].
  destruct (graph_job_run LaunchTemplateSchema _ _) as [[[]|e] g]; cbn [fst snd].
  - rewrite call_graph_run. cbn [graph_state ec2_state trace].
    by rewrite <- !app_assoc.
  - by rewrite <- !app_assoc.
Qed.

(** X17: the first error in the pass over a region is the outcome of the whole
    sync, with the world exactly as that pass left it: no later region is
    fetched or loaded and no cleanup job runs, while what the earlier regions
    loaded stays loaded. *)
Theorem sync_stops_at_first_error regions_done region regions_rest
    current_aws_account_id update_tag common_job_parameters w0 w e w' :
  sync_regions str_other paginate_launch_templates paginate_launch_template_versions
    load regions_done current_aws_account_id update_tag w0 = (Ok tt, w) →
  sync_region str_other paginate_launch_templates paginate_launch_template_versions
    load region current_aws_account_id update_tag w = (Raise e, w') →
  sync_ec2_launch_templates str_other paginate_launch_templates
    paginate_launch_template_versions load graph_job_run
    (regions_done ++ region :: regions_rest) current_aws_account_id update_tag
    common_job_parameters w0 = (Raise e, w') ∧
  ∃ t, trace w' = trace w0 ++ t ∧ Forall (λ ev, ¬ is_job_run ev) t.
Proof.
  intros Hdone Hregion. split.
  - by apply sync_aborts_in_region with (w := w).
  - by eapply sync_aborts_in_region_trace.
Qed.

(** X18: a region without templates starts no version pagination and still
    calls both loads, each with an empty list; a failure of the template load
    keeps the version load from being called. *)
Theorem sync_region_no_templates region current_aws_account_id update_tag w :
  let ps := (paginate_launch_templates region (ec2_state w)).1 in
  let s := (paginate_launch_templates region (ec2_state w)).2 in
  let fetched := trace w ++ [ sync_start region current_aws_account_id;
                              DescribeLaunchTemplates region ] in
  let load_templates := Load LaunchTemplateSchema [] region current_aws_account_id update_tag in
  let load_versions :=
    Load LaunchTemplateVersionSchema [] region current_aws_account_id update_tag in
  pages_error ps = None →
  concat (map LaunchTemplates (pages_received ps)) = [] →
  sync_region str_other paginate_launch_templates paginate_launch_template_versions
    load region current_aws_account_id update_tag w =
  match load LaunchTemplateSchema [] region current_aws_account_id update_tag
          (graph_state w) with
  | (Raise e, g) => (Raise e, World s g (fetched ++ [load_templates]))
  | (Ok _, g) =>
      ((load LaunchTemplateVersionSchema [] region current_aws_account_id update_tag g).1,
       World s
         (load LaunchTemplateVersionSchema [] region current_aws_account_id update_tag g).2
         (fetched ++ [load_templates; load_versions]))
  end.
Proof.
  cbn zeta. intros Herr Hnone. rewrite sync_region_run.
  rewrite get_launch_templates_outcome. cbn zeta. cbn [emit snd ec2_state graph_state trace].
  rewrite Herr, Hnone.
  cbn [get_launch_template_versions timeit aws_handle_regions
       get_launch_template_versions_loop mret M_ret].
  change (transform_launch_templates [] []) with (Ok (@nil dict)).
  unfold load_launch_templates, load_launch_template_versions, timeit.
  rewrite call_graph_run. cbn [graph_state ec2_state trace].
  destruct (load LaunchTemplateSchema [] _ _ _ _) as [[[]|e] g]; cbn [fst snd].
  - change (transform_launch_template_versions str_other []) with (Ok (@nil dict)).
    cbv beta iota. rewrite call_graph_run. cbn [graph_state ec2_state trace].
    by rewrite <- !app_assoc.
  - by rewrite <- !app_assoc.
Qed.

(** X19: in a pass that completes, the two lists handed to the loader are the
    transforms of what the pass fetched, templates first, and every template
    record loaded has a version record loaded in the same pass with the same
    id. *)
Theorem sync_region_loads region current_aws_account_id update_tag w w' :
  sync_region str_other paginate_launch_templates paginate_launch_template_versions
    load region current_aws_account_id update_tag w = (Ok tt, w') →
  ∃ templates versions transformed_templates transformed_versions w1 w2 fetches,
    get_launch_templates paginate_launch_templates region
      (emit (sync_start region current_aws_account_id) w).2 = (Ok templates, w1) ∧
    get_launch_template_versions paginate_launch_template_versions region templates w1 =
      (Ok versions, w2) ∧
    transform_launch_templates templates versions = Ok transformed_templates ∧
    transform_launch_template_versions str_other versions = Ok transformed_versions ∧
    trace w2 = trace w ++ [ sync_start region current_aws_account_id;
                            DescribeLaunchTemplates region ] ++ fetches ∧
    trace w' = trace w2 ++
      [ Load LaunchTemplateSchema transformed_templates region
          current_aws_account_id update_tag;
        Load LaunchTemplateVersionSchema transformed_versions region
          current_aws_account_id update_tag ] ∧
    ∀ o, o ∈ transformed_templates → has_version transformed_versions o.
Proof.
  rewrite sync_region_run.
  destruct (get_launch_templates _ _ _) as [[templates|?] w1] eqn:Htemplates; [| done].
  destruct (get_launch_template_versions _ _ _ _) as [[versions|?] w2] eqn:Hversions;
    [| done].
  destruct (transform_launch_templates templates versions) as [tts|?] eqn:Htts; [| done].
  unfold load_launch_templates, load_launch_template_versions, timeit.
  rewrite call_graph_run.
  destruct (load LaunchTemplateSchema tts _ _ _ _) as [[[]|?] g3]; cbn [fst snd]; [| done].
  destruct (transform_launch_template_versions str_other versions) as [tvs|?] eqn:Htvs;
    [| done].
  rewrite call_graph_run. cbn [graph_state ec2_state trace]. intros [= _ <-].
  pose proof (get_launch_templates_outcome region
                (emit (sync_start region current_aws_account_id) w).2) as Hrun1.
  cbn zeta in Hrun1. rewrite Htemplates in Hrun1. injection Hrun1 as _ Hw1.
  pose proof (get_launch_template_versions_loop_fetches region templates [] w1)
    as (_ & fetches & Hw2 & _). cbn zeta in Hw2.
  change (get_launch_template_versions_loop paginate_launch_template_versions
            region templates [] w1)
    with (get_launch_template_versions paginate_launch_template_versions
            region templates w1) in Hw2.
  rewrite Hversions in Hw2. cbn [snd] in Hw2.
  exists templates, versions, tts, tvs, w1, w2, fetches.
  split_and!; try done.
  - rewrite Hw2, Hw1. cbn [emit snd trace]. by rewrite <- !app_assoc.
  - cbn [trace]. by rewrite <- app_assoc.
  - intros o Ho.
    apply transform_launch_templates_Ok in Htts as (_ & _ & Hall).
    destruct (Forall2_elem_of_r _ _ _ _ Hall Ho) as (t & [Hv _]%list_elem_of_filter & Hem).
    apply (emitted_from_has_version _ _ _ Hem) in Hv as [Hkey Hex].
    split; [done |].
    apply Exists_exists in Hex as (v & Hv & Hsame).
    apply transform_launch_template_versions_Ok in Htvs.
    destruct (Forall2_elem_of_l _ _ _ _ Htvs Hv) as (current & Hcur & Hone).
    apply Exists_exists. exists current. split; [done |].
    by rewrite (transform_launch_template_version_key _ _ Hone).
Qed.

Lemma version_fetch_not_load region t :
  Forall (is_version_fetch region) t → Forall (λ ev, ¬ is_load ev) t.
Proof. intros H. eapply Forall_impl; [done |]. intros ev Hf Hl. by destruct ev. Qed.

(** Breaks the outcome of a chain of [appends_bind] into its cases. *)
Ltac split_cases :=
  repeat match goal with
         | H : _ ∨ _ |- _ => destruct H as [H|H]
         | H : ∃ _, _ |- _ => destruct H as [? H]
         | H : _ ∧ _ |- _ => destruct H as [? ?]
         end;
  simplify_eq.

(** Closes a goal that says a concrete trace holds no load. *)
Ltac no_load :=
  cbn [app];
  repeat first
    [ apply Forall_nil_2
    | apply Forall_cons; split; [by intros [] |]
    | apply Forall_app; split
    | by eapply version_fetch_not_load; eassumption ].

Lemma appends_sync_region_loads region current_aws_account_id update_tag :
  appends (ec2 := ec2) (neo4j := neo4j)
    (sync_region str_other paginate_launch_templates paginate_launch_template_versions
       load region current_aws_account_id update_tag)
    (λ r t, ∃ before loads transformed_templates transformed_versions,
       t = before ++ loads ∧
       Forall (λ ev, ¬ is_load ev) before ∧
       loads `prefix_of`
         [ Load LaunchTemplateSchema transformed_templates region
             current_aws_account_id update_tag;
           Load LaunchTemplateVersionSchema transformed_versions region
             current_aws_account_id update_tag ]).
Proof.
  unfold sync_region, get_launch_template_versions,
    load_launch_templates, load_launch_template_versions, timeit, aws_handle_regions.
  eapply appends_weaken.
  { eapply appends_bind; [apply appends_emit |]. intros ?.
    eapply appends_bind; [apply appends_get_launch_templates |]. intros templates.
    eapply appends_bind; [apply appends_get_launch_template_versions_loop |].
    intros versions.
    eapply appends_bind; [apply appends_lift |]. intros transformed_templates.
    eapply appends_bind; [apply appends_call_graph |]. intros ?.
    eapply appends_bind; [apply appends_lift |]. intros transformed_versions.
    apply appends_call_graph. }
  cbv beta. intros r t H. split_cases.
  - eexists _, [], [], [].
    split_and!; [symmetry; apply app_nil_r | no_load | apply prefix_nil].
  - eexists _, [], [], [].
    split_and!; [symmetry; apply app_nil_r | no_load | apply prefix_nil].
  - eexists _, [], [], [].
    split_and!; [symmetry; apply app_nil_r | no_load | apply prefix_nil].
  - match goal with
    | Hf : Forall (is_version_fetch region) ?x6
      |- context [Load LaunchTemplateSchema ?d _ _ _] =>
        exists ([sync_start region current_aws_account_id;
                 DescribeLaunchTemplates region] ++ x6),
               [Load LaunchTemplateSchema d region current_aws_account_id update_tag],
               d, []
    end.
    split_and!; [by rewrite <- !app_assoc | no_load | by apply prefix_cons, prefix_nil].
  - match goal with
    | Hf : Forall (is_version_fetch region) ?x6
      |- context [Load LaunchTemplateSchema ?d _ _ _] =>
        exists ([sync_start region current_aws_account_id;
                 DescribeLaunchTemplates region] ++ x6),
               [Load LaunchTemplateSchema d region current_aws_account_id update_tag],
               d, []
    end.
    split_and!; [by rewrite <- !app_assoc | no_load | by apply prefix_cons, prefix_nil].
  - match goal with
    | |- context [Load LaunchTemplateVersionSchema ?d' _ _ _] =>
      match goal with
      | Hf : Forall (is_version_fetch region) ?x6
        |- context [Load LaunchTemplateSchema ?d _ _ _] =>
        exists ([sync_start region current_aws_account_id;
                 DescribeLaunchTemplates region] ++ x6),
               [Load LaunchTemplateSchema d region current_aws_account_id update_tag;
                Load LaunchTemplateVersionSchema d' region current_aws_account_id update_tag],
               d, d'
      end
    end.
    split_and!; [by rewrite <- !app_assoc | no_load | done].
Qed.

(** X20: whatever the outcome of a pass, the loads are the last things it
    does and come in one order: nothing, or the template load, or the
    template load followed by the version load, all for the region of the
    pass; the version load is never called without the template load before
    it. *)
Theorem sync_region_load_order region current_aws_account_id update_tag w :
  let run := sync_region str_other paginate_launch_templates
               paginate_launch_template_versions load region
               current_aws_account_id update_tag w in
  ∃ before loads transformed_templates transformed_versions,
    trace run.2 = trace w ++ before ++ loads ∧
    Forall (λ ev, ¬ is_load ev) before ∧
    loads `prefix_of`
      [ Load LaunchTemplateSchema transformed_templates region
          current_aws_account_id update_tag;
        Load LaunchTemplateVersionSchema transformed_versions region
          current_aws_account_id update_tag ].
Proof.
  cbn zeta.
  destruct (appends_sync_region_loads region current_aws_account_id update_tag w)
    as (t & Ht & before & loads & tts & tvs & -> & Hbefore & Hloads).
  by exists before, loads, tts, tvs.
Qed.

End MoreSyncFacts.

(** ** The further properties on the sample data *)

Lemma run_Ok {W} (x : pyresult unit * W) : x.1 = Ok tt → x = (Ok tt, x.2).
Proof. destruct x as [r w]. by intros [= ->]. Qed.

Lemma transform_launch_templates_frame_witness :
  (length (records (transform_launch_templates [sample_template_1; sample_template_2]
                      [sample_version_1])) ≤ 2)%nat ∧
  ∀ o, o ∈ records (transform_launch_templates [sample_template_1; sample_template_2]
                      [sample_version_1]) →
    ∃ t, t ∈ [sample_template_1; sample_template_2] ∧ dom o = dom t ∧
         (∀ k, k ≠ "CreateTime" → o !! k = t !! k) ∧
         ∃ s, o !! "CreateTime" = Some (VStr s).
Proof.
  apply (transform_launch_templates_frame [sample_template_1; sample_template_2]
           [sample_version_1]).
  apply succeeds_records. vm_compute. reflexivity.
Defined.

Lemma transform_launch_templates_no_versions_witness :
  transform_launch_templates [sample_template_1; sample_template_2] [] = Ok [].
Proof.
  apply (transform_launch_templates_no_versions [sample_template_1; sample_template_2]).
  repeat constructor; eexists; vm_compute; reflexivity.
Defined.

Lemma transform_launch_templates_version_ids_witness :
  transform_launch_templates [sample_template_1; sample_template_2]
    [sample_version_1; sample_version_2; sample_version_1] =
  transform_launch_templates [sample_template_1; sample_template_2]
    [sample_version_2; sample_version_1].
Proof.
  apply transform_launch_templates_version_ids.
  - repeat constructor; eexists; vm_compute; reflexivity.
  - repeat constructor; eexists; vm_compute; reflexivity.
  - intros k. rewrite !Exists_cons, !Exists_nil. tauto.
Defined.

Lemma transform_launch_templates_bad_version_witness :
  transform_launch_templates [] ([sample_version_1] ++ ∅ :: [sample_version_2]) =
    Raise (KeyError "LaunchTemplateId").
Proof.
  apply (transform_launch_templates_bad_version [] [sample_version_1] ∅ [sample_version_2]).
  - repeat constructor; eexists; vm_compute; reflexivity.
  - reflexivity.
Defined.

Lemma transform_launch_templates_head_witness :
  transform_launch_templates [sample_template_2; sample_template_1] [sample_version_1] =
  transform_launch_templates [sample_template_1] [sample_version_1].
Proof.
  apply (transform_launch_templates_head sample_template_2 [sample_template_1]
           [sample_version_1]).
  - repeat constructor; eexists; vm_compute; reflexivity.
  - eexists. vm_compute. reflexivity.
  - intros [_ H]. apply Exists_cons in H as [H|H]; [| by apply Exists_nil in H].
    vm_compute in H. discriminate H.
Defined.

Lemma transform_launch_template_version_error_witness :
  transform_launch_template_version sample_str_other sample_version_no_data =
    Raise (KeyError "LaunchTemplateData").
Proof.
  apply (transform_launch_template_version_error sample_str_other sample_version_no_data).
  right. split; [eexists; vm_compute; reflexivity |].
  right. split; [eexists; vm_compute; reflexivity |].
  right. right. split; [eexists; vm_compute; reflexivity |].
  left. split; reflexivity.
Defined.

Lemma transform_launch_template_version_keys_witness :
  ∃ current,
    transform_launch_template_version sample_str_other sample_version_9 = Ok current ∧
    dom current = dom sample_version_9 ∪ {[ "Id" ]} ∪ list_to_set tracked_fields.
Proof.
  assert (Hwf : well_formed_version sample_version_9).
  { unfold well_formed_version. split_and!; eexists; vm_compute; reflexivity. }
  destruct (proj1 (well_formed_version_Ok sample_str_other sample_version_9) Hwf)
    as [current Hcur].
  exists current. split; [exact Hcur |].
  exact (transform_launch_template_version_keys sample_str_other sample_version_9
           current Hcur).
Defined.

Lemma transform_launch_template_version_twice_witness :
  ∃ current,
    transform_launch_template_version sample_str_other sample_version_1 = Ok current ∧
    transform_launch_template_version sample_str_other current =
      Raise (AttributeError "timestamp").
Proof.
  assert (Hwf : well_formed_version sample_version_1).
  { unfold well_formed_version. split_and!; eexists; vm_compute; reflexivity. }
  destruct (proj1 (well_formed_version_Ok sample_str_other sample_version_1) Hwf)
    as [current Hcur].
  exists current. split; [exact Hcur |].
  exact (transform_launch_template_version_twice sample_str_other sample_version_1
           current Hcur).
Defined.

Lemma get_launch_templates_run_witness :
  get_launch_templates sample_paginate_templates "us-east-1" sample_world =
    (Ok [sample_template_1; sample_template_2],
     World tt tt [DescribeLaunchTemplates "us-east-1"]).
Proof.
  apply (get_launch_templates_run sample_paginate_templates "us-east-1" sample_world).
  reflexivity.
Defined.

Lemma get_launch_template_versions_by_template_effects_witness :
  (get_launch_template_versions_by_template sample_paginate_versions
     (VStr "lt-2") "us-east-1" sample_world).1 = Ok [sample_version_2] ∧
  trace (get_launch_template_versions_by_template sample_paginate_versions
           (VStr "lt-2") "us-east-1" sample_world).2 =
    [DescribeLaunchTemplateVersions (VStr "lt-2") "us-east-1"].
Proof.
  apply (get_launch_template_versions_by_template_effects sample_paginate_versions
           (VStr "lt-2") "us-east-1" sample_world).
  reflexivity.
Defined.

Lemma get_launch_template_versions_missing_id_witness :
  get_launch_template_versions sample_paginate_versions "us-east-1"
    ([sample_template_2] ++ ∅ :: [sample_template_1]) sample_world =
    (Raise (KeyError "LaunchTemplateId"),
     World tt tt [DescribeLaunchTemplateVersions (VStr "lt-2") "us-east-1"]).
Proof.
  apply (get_launch_template_versions_missing_id sample_paginate_versions "us-east-1"
           [sample_template_2] ∅ [sample_template_1] sample_world [[sample_version_2]]).
  - econstructor; [reflexivity | reflexivity | constructor].
  - reflexivity.
Defined.

Lemma get_launch_template_versions_tolerant_witness :
  ∃ template_versions w',
    get_launch_template_versions sample_paginate_gone "us-east-1"
      [sample_template_1; sample_template_2] sample_world = (Ok template_versions, w').
Proof.
  apply get_launch_template_versions_tolerant.
  - intros i s. right. reflexivity.
  - repeat constructor; eexists; vm_compute; reflexivity.
Defined.

Lemma sync_stops_at_first_error_witness :
  sync_ec2_launch_templates sample_str_other sample_paginate_templates
    sample_paginate_versions sample_load sample_graph_job_run
    ([] ++ "eu-west-1" :: ["us-east-1"]) sample_account 1 ∅ sample_world =
    (Raise (ClientError "RequestLimitExceeded"),
     World tt tt [ sync_start "eu-west-1" sample_account;
                   DescribeLaunchTemplates "eu-west-1";
                   DescribeLaunchTemplateVersions (VStr "lt-2") "eu-west-1" ]) ∧
  ∃ t, [ sync_start "eu-west-1" sample_account;
         DescribeLaunchTemplates "eu-west-1";
         DescribeLaunchTemplateVersions (VStr "lt-2") "eu-west-1" ] = [] ++ t ∧
       Forall (λ ev, ¬ is_job_run ev) t.
Proof.
  apply (sync_stops_at_first_error sample_str_other sample_paginate_templates
           sample_paginate_versions sample_load sample_graph_job_run
           [] "eu-west-1" ["us-east-1"] sample_account 1 ∅ sample_world sample_world).
  - reflexivity.
  - reflexivity.
Defined.

Lemma sync_region_no_templates_witness :
  sync_region sample_str_other sample_paginate_templates sample_paginate_versions
    sample_load "sa-east-1" sample_account 1 sample_world =
    (Ok tt,
     World tt tt [ sync_start "sa-east-1" sample_account;
                   DescribeLaunchTemplates "sa-east-1";
                   Load LaunchTemplateSchema [] "sa-east-1" sample_account 1;
                   Load LaunchTemplateVersionSchema [] "sa-east-1" sample_account 1 ]).
Proof.
  apply (sync_region_no_templates sample_str_other sample_paginate_templates
           sample_paginate_versions sample_load "sa-east-1" sample_account 1 sample_world).
  - reflexivity.
  - reflexivity.
Defined.

Lemma sync_region_loads_witness :
  ∃ templates versions transformed_templates transformed_versions w1 w2 fetches,
    get_launch_templates sample_paginate_templates "us-east-1"
      (emit (sync_start "us-east-1" sample_account) sample_world).2 = (Ok templates, w1) ∧
    get_launch_template_versions sample_paginate_versions "us-east-1" templates w1 =
      (Ok versions, w2) ∧
    transform_launch_templates templates versions = Ok transformed_templates ∧
    transform_launch_template_versions sample_str_other versions = Ok transformed_versions ∧
    trace w2 = trace sample_world ++ [ sync_start "us-east-1" sample_account;
                                       DescribeLaunchTemplates "us-east-1" ] ++ fetches ∧
    trace (sync_region sample_str_other sample_paginate_templates sample_paginate_versions
             sample_load "us-east-1" sample_account 1 sample_world).2 =
      trace w2 ++
      [ Load LaunchTemplateSchema transformed_templates "us-east-1" sample_account 1;
        Load LaunchTemplateVersionSchema transformed_versions "us-east-1" sample_account 1 ] ∧
    ∀ o, o ∈ transformed_templates → has_version transformed_versions o.
Proof.
  apply (sync_region_loads sample_str_other sample_paginate_templates
           sample_paginate_versions sample_load "us-east-1" sample_account 1 sample_world).
  apply run_Ok. vm_compute. reflexivity.
Defined.

Lemma cleanup_once_after_all_regions_witness :
  sync_ec2_launch_templates sample_str_other sample_paginate_templates
    sample_paginate_versions sample_load sample_graph_job_run
    ["us-east-1"; "sa-east-1"] sample_account 1 ∅ sample_world =
  (let w1 := (sync_regions sample_str_other sample_paginate_templates
                sample_paginate_versions sample_load
                ["us-east-1"; "sa-east-1"] sample_account 1 sample_world).2 in
   (Ok tt, World (ec2_state w1) (graph_state w1) (trace w1 ++ cleanup_events ∅))) ∧
  filter is_job_run
    (trace (sync_ec2_launch_templates sample_str_other sample_paginate_templates
              sample_paginate_versions sample_load sample_graph_job_run
              ["us-east-1"; "sa-east-1"] sample_account 1 ∅ sample_world).2) =
    [ GraphJobRun LaunchTemplateSchema ∅; GraphJobRun LaunchTemplateVersionSchema ∅ ].
Proof.
  destruct (cleanup_once_after_all_regions sample_str_other sample_paginate_templates
              sample_paginate_versions sample_load sample_graph_job_run
              ["us-east-1"; "sa-east-1"] sample_account 1 ∅ sample_world)
    as (_ & Hdone & _).
  split.
  - apply Hdone. apply run_Ok. vm_compute. reflexivity.
  - vm_compute. reflexivity.
Defined.
